(** * run-fan: a shallow embedding of [run-fan.py] and its verified properties.

    The script polls the CPU temperature every [sleepTime] seconds and drives
    a fan through one GPIO pin with a two-threshold (hysteresis) rule.  The
    embedding keeps the script's shape: module globals and the three objects
    ([Pin], [Fan], [Temperature]) become one explicit [State]; every call
    that leaves the interpreter (GPIO, files, [os.popen], [os.system],
    [time.sleep]) appends an [event] to a trace; Python exceptions are an
    outcome of the monad [M], caught by [try_except] exactly where the script
    has [try]/[except].

    What the outside world answers is an input of the model: [Boot] for the
    start-up calls and one [Tick] per iteration of [while True].  Python
    floats are IEEE 754 binary64 numbers, here Rocq's primitive [float]. *)

From Stdlib Require Import Floats ZArith String Ascii List Bool Arith Lia.
Import ListNotations.

Local Open Scope string_scope.
Local Open Scope list_scope.

(** ** Float comparisons as Python writes them *)

Module PyFloat.

(** [a > b] on Python floats is the IEEE comparison [b < a]. *)
Definition gt (a b : float) : bool := PrimFloat.ltb b a.

(** [a <= b] on Python floats. *)
Definition le (a b : float) : bool := PrimFloat.leb a b.

(** [a == b] on Python floats. *)
Definition eq (a b : float) : bool := PrimFloat.eqb a b.

End PyFloat.

(** ** Exceptions, signals and observable effects *)

(** The exception classes that can reach the script's handlers: a failed
    [float(res)] is a [ValueError], as is a write to a closed file; the GPIO
    library raises [RuntimeError]; a failed [open] raises [IOError];
    [KeyboardInterrupt] is what SIGINT becomes.  [Other cls] is an exception
    of any other class, which the bare [except:] catches all the same. *)
Inductive exn : Type :=
| KeyboardInterrupt
| ValueError
| RuntimeError
| IOError
| Other (cls : string).

(** The script imports [signal] but installs no handler: SIGINT keeps
    Python's default (raise [KeyboardInterrupt]); SIGTERM keeps the operating
    system's default action, which ends the process at once. *)
Inductive signal : Type :=
| SIGINT
| SIGTERM.

(** A log message is built by [+] from literals and [str(...)] of a number;
    the fragments are kept apart instead of rendering [str] of a float. *)
Inductive frag : Type :=
| Lit (s : string)
| StrZ (n : Z)
| StrF (x : float).

Definition msg : Type := list frag.

(** One constructor per call that leaves the interpreter.  [LogWrite p m] is
    [fileLog.write(timeStamp() + m + "\n")] on the sink opened at path [p];
    the time stamp prefix is read from the clock and is not recorded. *)
Inductive event : Type :=
| GpioSetmode
| GpioSetwarnings
| GpioSetup (p : Z)
| GpioFunction (p : Z)
| GpioOutput (p : Z) (level : bool)
| GpioCleanup
| Popen (cmd : string)
| LogWrite (path : string) (m : msg)
| FileOpen (path : string)
| FileClose (path : string)
| System (cmd : string)
| Sleep (secs : Z).

(** ** Program state *)

(** A Python file object: the path it was opened at and its [closed] flag. *)
Record File : Type := mkFile { name : string; closed : bool }.

(** [class Fan]: [fanOff] is the controller's record of the fan state. *)
Record Fan : Type := mkFan { fanOff : bool }.

(** [class Temperature]. *)
Record Temperature : Type := mkTemperature {
  cpuTemperature : float;
  startTemperature : float;
  stopTemperature : float
}.

(** Module globals ([logName], [fileLog], [myFan], [myTemp]) and the trace of
    effects so far, oldest first.  [myPin] carries no data besides the class
    constant [pin]. *)
Record State : Type := mkState {
  logName : string;
  fileLog : File;
  myFan : Fan;
  myTemp : Temperature;
  trace : list event
}.

(** ** What the outside world answers *)

(** The local calendar date [datetime.fromtimestamp(time.time())] breaks the
    clock into. *)
Record Date : Type := mkDate { year : Z; month : Z; day : Z }.

(** Start-up: whether [GPIO.setup] returns or raises, and what
    [GPIO.gpio_function] reports. *)
Record Boot : Type := mkBoot { gpio_setup_ok : bool; gpio_func : Z }.

(** One iteration of [while True]: [sensor] is the value of [float(res)] for
    the line read from the thermal zone ([None] when [float] raises
    [ValueError]); [gpio_output_ok] tells whether [GPIO.output] returns;
    [today] is the date seen by [dateStamp()]; [open_ok] tells whether
    [open(logName, 'w+')] returns; [sleep_signal] is the signal delivered
    while [time.sleep] blocks, if any. *)
Record Tick : Type := mkTick {
  sensor : option float;
  gpio_output_ok : bool;
  today : Date;
  open_ok : bool;
  sleep_signal : option signal
}.

(** ** The monad: state, exceptions, process death, exhausted input *)

Inductive outcome (A : Type) : Type :=
| Return (a : A)
| Raise (e : exn)
| Killed (s : signal)
| Pending.

Arguments Return {A} a.
Arguments Raise {A} e.
Arguments Killed {A} s.
Arguments Pending {A}.

Definition M (A : Type) : Type := State -> outcome A * State.

Definition ret {A : Type} (a : A) : M A := fun st => (Return a, st).

Definition bind {A B : Type} (c : M A) (k : A -> M B) : M B :=
  fun st =>
    match c st with
    | (Return a, st') => k a st'
    | (Raise e, st') => (Raise e, st')
    | (Killed s, st') => (Killed s, st')
    | (Pending, st') => (Pending, st')
    end.

Notation "c1 ;; c2" := (bind c1 (fun _ => c2))
  (at level 61, right associativity).

Definition raise {A : Type} (e : exn) : M A := fun st => (Raise e, st).

(** [try: c  except: h] with a bare or catch-all handler list: [h] sees every
    exception; a killed process and an unfinished run are not exceptions. *)
Definition try_except {A : Type} (c : M A) (h : exn -> M A) : M A :=
  fun st =>
    match c st with
    | (Raise e, st') => h e st'
    | r => r
    end.

Definition emit (e : event) : M unit :=
  fun st =>
    (Return tt,
     mkState (logName st) (fileLog st) (myFan st) (myTemp st) (trace st ++ [e])).

(** ** Globals and helpers of the script *)

Definition sleepTime : Z := 30.

Definition default_logName : string := "/home/pi/run-fan/logs/run-fan-default.log".

(** A decimal digit as a character. *)
Definition digit (n : Z) : ascii := ascii_of_N (Z.to_N (48 + n mod 10)).

(** [dateStamp()]: [strftime('%Y.%m.%d')] of the local date; the year is
    written with four digits, month and day with two. *)
Definition dateStamp (d : Date) : string :=
  (String (digit (year d / 1000)) (String (digit (year d / 100))
  (String (digit (year d / 10)) (String (digit (year d))
  (String "."
  (String (digit (month d / 10)) (String (digit (month d))
  (String "."
  (String (digit (day d / 10)) (String (digit (day d)) EmptyString))))))))))%Z.

(** Dates of the range the clock can report in which [%Y] has four digits. *)
Definition valid_date (d : Date) : bool :=
  ((1000 <=? year d) && (year d <=? 9999) &&
   (1 <=? month d) && (month d <=? 12) &&
   (1 <=? day d) && (day d <=? 31))%Z.

(** ["/home/pi/run-fan/logs/run-fan-{}.log".format(dateStamp())] *)
Definition dated_logName (d : Date) : string :=
  "/home/pi/run-fan/logs/run-fan-" ++ dateStamp d ++ ".log".

(** [printMsg(s)]: writing to a closed file raises [ValueError]. *)
Definition printMsg (m : msg) : M unit :=
  fun st =>
    if closed (fileLog st) then (Raise ValueError, st)
    else emit (LogWrite (name (fileLog st)) m) st.

(** [fileLog.close()]; closing a closed file does nothing. *)
Definition fileLog_close : M unit :=
  fun st =>
    if closed (fileLog st) then (Return tt, st)
    else (Return tt,
          mkState (logName st) (mkFile (name (fileLog st)) true)
                  (myFan st) (myTemp st)
                  (trace st ++ [FileClose (name (fileLog st))])).

(** ** class Pin *)

(** [Pin.pin]: the BCM pin number. *)
Definition pin : Z := 25.

Definition GPIO_setup (b : Boot) : M unit :=
  emit (GpioSetup pin) ;;
  if gpio_setup_ok b then ret tt else raise RuntimeError.

(** [Pin.__init__].  The handler ends in the bare name [exit], an expression
    statement that calls nothing, so the constructor returns normally. *)
Definition Pin_init (b : Boot) : M unit :=
  try_except
    (emit GpioSetmode ;;
     emit GpioSetwarnings ;;
     GPIO_setup b ;;
     printMsg [Lit "Initialized: run-fan using GPIO pin: "; StrZ pin] ;;
     emit (GpioFunction pin) ;;
     printMsg [Lit "GPIO pin: "; StrZ pin; Lit " set to "; StrZ (gpio_func b)])
    (fun _ =>
       printMsg [Lit "If method setup doesn't work, need to run script as sudo"]).

(** [Pin.exitPin] *)
Definition exitPin : M unit := emit GpioCleanup.

(** [Pin.set(state)]: [GPIO.output(self.pin, state)] *)
Definition Pin_set (t : Tick) (state : bool) : M unit :=
  emit (GpioOutput pin state) ;;
  if gpio_output_ok t then ret tt else raise RuntimeError.

(** ** class Fan *)

Definition set_fanOff (v : bool) : M unit :=
  fun st =>
    (Return tt, mkState (logName st) (fileLog st) (mkFan v) (myTemp st) (trace st)).

(** [Fan.__init__] *)
Definition Fan_init : M unit := set_fanOff true.

(** [Fan.setFan(temp, on, myPin)] *)
Definition setFan (t : Tick) (temp : float) (on : bool) : M unit :=
  (if on then printMsg [Lit "Turning fan on "; StrF temp]
   else printMsg [Lit "Turning fan off "; StrF temp]) ;;
  Pin_set t on ;;
  set_fanOff (negb on).

(** ** class Temperature *)

Definition set_myTemp (T : Temperature) : M unit :=
  fun st =>
    (Return tt, mkState (logName st) (fileLog st) (myFan st) T (trace st)).

(** [Temperature.__init__] *)
Definition Temperature_init : M unit :=
  fun st =>
    let start := 67%float in
    let stop := (start - 5)%float in
    (set_myTemp (mkTemperature (cpuTemperature (myTemp st)) start stop) ;;
     printMsg [Lit "Start fan at: "; StrF start] ;;
     printMsg [Lit "Stop fan at: "; StrF stop]) st.

(** [Temperature.getTemperature] *)
Definition getTemperature (t : Tick) : M unit :=
  emit (Popen "cat /sys/class/thermal/thermal_zone0/temp") ;;
  match sensor t with
  | None => raise ValueError
  | Some res =>
      fun st =>
        set_myTemp (mkTemperature (res / 1000)%float
                                  (startTemperature (myTemp st))
                                  (stopTemperature (myTemp st))) st
  end.

(** [Temperature.checkTemperature(myFan, myPin)] *)
Definition checkTemperature (t : Tick) : M unit :=
  getTemperature t ;;
  fun st =>
    let T := myTemp st in
    if PyFloat.gt (cpuTemperature T) (startTemperature T) then
      if fanOff (myFan st) then setFan t (cpuTemperature T) true st
      else (Return tt, st)
    else if PyFloat.le (cpuTemperature T) (stopTemperature T) then
      if negb (fanOff (myFan st)) then setFan t (cpuTemperature T) false st
      else (Return tt, st)
    else (Return tt, st).

(** ** The main loop *)

Definition set_logName (s : string) : M unit :=
  fun st =>
    (Return tt, mkState s (fileLog st) (myFan st) (myTemp st) (trace st)).

(** [fileLog = open(logName, 'w+', buffering=1)] *)
Definition open_logName (t : Tick) : M unit :=
  fun st =>
    let st1 := mkState (logName st) (fileLog st) (myFan st) (myTemp st)
                       (trace st ++ [FileOpen (logName st)]) in
    if open_ok t then
      (Return tt,
       mkState (logName st1) (mkFile (logName st1) false)
               (myFan st1) (myTemp st1) (trace st1))
    else (Raise IOError, st1).

Definition sweep_command : string :=
  "find /home/pi/run-fan/logs/ -mtime +14 -delete".

(** Lines 192-199: close and reopen the log when its dated name changed. *)
Definition rotate_log (t : Tick) : M unit :=
  fun st =>
    let tmp := dated_logName (today t) in
    if negb (String.eqb tmp (logName st)) then
      (fileLog_close ;;
       set_logName tmp ;;
       open_logName t ;;
       emit (System sweep_command)) st
    else (Return tt, st).

(** [time.sleep(sleepTime)], the one place where the process blocks. *)
Definition sleep (t : Tick) : M unit :=
  emit (Sleep sleepTime) ;;
  match sleep_signal t with
  | None => ret tt
  | Some SIGINT => raise KeyboardInterrupt
  | Some SIGTERM => fun st => (Killed SIGTERM, st)
  end.

(** One pass through the body of [while True]. *)
Definition iteration (t : Tick) : M unit :=
  checkTemperature t ;;
  rotate_log t ;;
  sleep t.

(** [while True: ...] run against the answers of [ticks]; when they are used
    up the loop is still running ([Pending]). *)
Fixpoint loop (ticks : list Tick) : M unit :=
  match ticks with
  | [] => fun st => (Pending, st)
  | t :: rest => iteration t ;; loop rest
  end.

(** The handlers of the module-level [try]. *)
Definition handler (e : exn) : M unit :=
  match e with
  | KeyboardInterrupt =>
      printMsg [Lit "keyboard exception occurred"] ;;
      exitPin ;;
      fileLog_close
  | _ =>
      printMsg [Lit "ERROR: an unhandled exception occurred"] ;;
      exitPin ;;
      fileLog_close
  end.

(** Lines 185-212. *)
Definition main (b : Boot) (ticks : list Tick) : M unit :=
  printMsg [Lit "Starting: run-fan"] ;;
  try_except
    (Pin_init b ;;
     Fan_init ;;
     Temperature_init ;;
     loop ticks)
    handler.

(** The state once lines 85-89 have run: the default sink is open.  The
    class-level defaults stand for the objects not yet constructed.  The
    [open] of line 89 is taken to return: when it raises, nothing catches it
    and the process ends with status 1 before any other line runs, so that
    run has no state to start from. *)
Definition init_state : State :=
  mkState default_logName (mkFile default_logName false)
          (mkFan true) (mkTemperature 0 0 0)
          [FileOpen default_logName].

(** How the process ends: falling off the end of the script is status 0, an
    exception nobody catches is a traceback and status 1. *)
Inductive status : Type :=
| Exit (code : Z)
| Signaled (s : signal)
| Running.

Definition run_fan (b : Boot) (ticks : list Tick) : status * State :=
  match main b ticks init_state with
  | (Return _, st) => (Exit 0, st)
  | (Raise _, st) => (Exit 1, st)
  | (Killed s, st) => (Signaled s, st)
  | (Pending, st) => (Running, st)
  end.

(** ** Reading a trace *)

(** The levels commanded through [GPIO.output], in order. *)
Fixpoint commands (tr : list event) : list bool :=
  match tr with
  | [] => []
  | GpioOutput _ level :: rest => level :: commands rest
  | _ :: rest => commands rest
  end.

Definition is_cleanup (e : event) : bool :=
  match e with GpioCleanup => true | _ => false end.

Definition is_popen (e : event) : bool :=
  match e with Popen _ => true | _ => false end.

Definition is_rotation (e : event) : bool :=
  match e with
  | FileOpen _ | FileClose _ | System _ => true
  | _ => false
  end.

Definition count (p : event -> bool) (tr : list event) : nat :=
  length (filter p tr).

(** The state in which the loop is entered: lines 185-189 run from
    [init_state]. *)
Definition booted (b : Boot) : State :=
  snd ((printMsg [Lit "Starting: run-fan"] ;;
        Pin_init b ;;
        Fan_init ;;
        Temperature_init) init_state).

(** At the top of every iteration the log is open under the name in
    [logName]. *)
Definition ready (st : State) : Prop :=
  closed (fileLog st) = false /\ name (fileLog st) = logName st.

(** The fan record agrees with the last level commanded; before any command
    the fan counts as off. *)
Definition records_last_command (st : State) : Prop :=
  fanOff (myFan st) = negb (last (commands (trace st)) false).

(** The sample of a tick, as [getTemperature] stores it. *)
Definition sample (t : Tick) : option float :=
  match sensor t with
  | Some res => Some (res / 1000)%float
  | None => None
  end.

(** The level [checkTemperature] is about to command for this sample and fan
    record, if any: the nested [if]/[elif] of the method, read off without
    its effects. *)
Definition decision (t : Tick) (st : State) : option bool :=
  match sample t with
  | None => None
  | Some temp =>
      if PyFloat.gt temp (startTemperature (myTemp st)) then
        if fanOff (myFan st) then Some true else None
      else if PyFloat.le temp (stopTemperature (myTemp st)) then
        if negb (fanOff (myFan st)) then Some false else None
      else None
  end.

(** The thresholds of a state are [start] and [stop]. *)
Definition tuned (start stop : float) (st : State) : Prop :=
  startTemperature (myTemp st) = start /\ stopTemperature (myTemp st) = stop.

(** While the fan record is [f], no tick of [mid] asks for a command. *)
Definition settled_at (start stop : float) (f : bool) (mid : list Tick) : Prop :=
  forall t st, In t mid -> tuned start stop st -> fanOff (myFan st) = f ->
    decision t st = None.

(** Every tick of [mid] either asks for nothing, the record being [f]
    already, or asks for the level that makes the record [f]. *)
Definition drives_to (start stop : float) (f : bool) (mid : list Tick) : Prop :=
  forall t st, In t mid -> tuned start stop st ->
    match decision t st with
    | None => fanOff (myFan st) = f
    | Some level => negb level = f
    end.

(** The three kinds of contiguous runs of samples. *)
Inductive run_kind : Type :=
| AboveStart
| AtOrBelowStop
| DeadBand.

Definition in_run (k : run_kind) (start stop : float) (t : Tick) : bool :=
  match sample t with
  | None => false
  | Some temp =>
      match k with
      | AboveStart => PyFloat.gt temp start
      | AtOrBelowStop => PyFloat.le temp stop
      | DeadBand => negb (PyFloat.gt temp start) && negb (PyFloat.le temp stop)
      end
  end.

(** How many output changes a run of that kind may cause. *)
Definition budget (k : run_kind) : nat :=
  match k with
  | DeadBand => 0
  | _ => 1
  end.

(** ** Sample inputs *)

(** [GPIO.setup] works and [gpio_function] reports 0 ([GPIO.OUT]). *)
Definition boot_ok : Boot := mkBoot true 0.

(** [GPIO.setup] raises, as it does without root rights. *)
Definition boot_failed : Boot := mkBoot false 0.

Definition day1 : Date := mkDate 2024 3 9.

(** A tick on which everything around the controller works; [res] is the
    number in the thermal zone file, in thousandths of a degree. *)
Definition quiet (d : Date) (res : float) : Tick :=
  mkTick (Some res) true d true None.

(** A tick on which the line read from the thermal zone is not a number. *)
Definition unreadable (d : Date) : Tick := mkTick None true d true None.

(** A tick on which the dated log cannot be opened. *)
Definition unopenable (d : Date) (res : float) : Tick :=
  mkTick (Some res) true d false None.

(** Ticks during whose sleep a signal arrives. *)
Definition interrupted (d : Date) (res : float) : Tick :=
  mkTick (Some res) true d true (Some SIGINT).

Definition terminated (d : Date) (res : float) : Tick :=
  mkTick (Some res) true d true (Some SIGTERM).

(** The same tick with nothing arriving during its sleep. *)
Definition without_signal (t : Tick) : Tick :=
  mkTick (sensor t) (gpio_output_ok t) (today t) (open_ok t) None.

(** The samples 50, 68, 65, 61, 63, 90 degrees, as the sensor reports them. *)
Definition scenario : list Tick :=
  map (quiet day1) [50000; 68000; 65000; 61000; 63000; 90000]%float.

(** The commands issued by tick number [n] (from 0) of a run: those of the
    run over [n + 1] ticks beyond those of the run over [n] ticks. *)
Definition issued_by_tick (b : Boot) (ticks : list Tick) (n : nat) : list bool :=
  skipn (length (commands (trace (snd (run_fan b (firstn n ticks))))))
        (commands (trace (snd (run_fan b (firstn (S n) ticks))))).

(** ** Time stamps and the order of dates *)

(** The local time [datetime.fromtimestamp(time.time())] breaks the clock
    into. *)
Record Clock : Type := mkClock { date : Date; hour : Z; minute : Z; second : Z }.

(** [timeStamp()]: [strftime('%Y/%m/%d %H:%M:%S - ')] of the local time. *)
Definition timeStamp (c : Clock) : string :=
  (String (digit (year (date c) / 1000)) (String (digit (year (date c) / 100))
  (String (digit (year (date c) / 10)) (String (digit (year (date c)))
  (String "/"
  (String (digit (month (date c) / 10)) (String (digit (month (date c)))
  (String "/"
  (String (digit (day (date c) / 10)) (String (digit (day (date c)))
  (String " "
  (String (digit (hour c / 10)) (String (digit (hour c))
  (String ":"
  (String (digit (minute c / 10)) (String (digit (minute c))
  (String ":"
  (String (digit (second c / 10)) (String (digit (second c))
  " - "%string)))))))))))))))))))%Z.

(** The ranges of [%H], [%M] and [%S] (a leap second can show as 60 or 61). *)
Definition valid_clock (c : Clock) : bool :=
  (valid_date (date c) &&
   (0 <=? hour c) && (hour c <=? 23) &&
   (0 <=? minute c) && (minute c <=? 59) &&
   (0 <=? second c) && (second c <=? 61))%Z.

(** The text [printMsg(s)] hands to [fileLog.write]:
    [timeStamp() + s + "\n"]. *)
Definition log_line (c : Clock) (s : string) : string :=
  timeStamp c ++ s ++ String "010" EmptyString.

(** Calendar order of dates and clock order of times. *)
Definition date_compare (d0 d1 : Date) : comparison :=
  match (year d0 ?= year d1)%Z with
  | Eq => match (month d0 ?= month d1)%Z with
          | Eq => (day d0 ?= day d1)%Z
          | c => c
          end
  | c => c
  end.

Definition clock_compare (c0 c1 : Clock) : comparison :=
  match date_compare (date c0) (date c1) with
  | Eq => match (hour c0 ?= hour c1)%Z with
          | Eq => match (minute c0 ?= minute c1)%Z with
                  | Eq => (second c0 ?= second c1)%Z
                  | c => c
                  end
          | c => c
          end
  | c => c
  end.

(** ** The events of one tick, read off the loop body *)

(** What [checkTemperature] does to the outside world on tick [t] from
    state [st]: it reads the sensor and, when the sample asks for a change,
    logs it and writes the pin. *)
Definition check_events (t : Tick) (st : State) : list event :=
  Popen "cat /sys/class/thermal/thermal_zone0/temp" ::
  match sample t, decision t st with
  | Some temp, Some level =>
      if closed (fileLog st) then []
      else [LogWrite (name (fileLog st))
              [Lit (if level then "Turning fan on " else "Turning fan off ");
               StrF temp];
            GpioOutput pin level]
  | _, _ => []
  end.

(** How [checkTemperature] ends on tick [t] from state [st]. *)
Definition check_outcome (t : Tick) (st : State) : outcome unit :=
  match sample t, decision t st with
  | None, _ => Raise ValueError
  | Some _, None => Return tt
  | Some _, Some _ =>
      if closed (fileLog st) then Raise ValueError
      else if gpio_output_ok t then Return tt
      else Raise RuntimeError
  end.

Definition returns (o : outcome unit) : bool :=
  match o with
  | Return _ => true
  | _ => false
  end.

(** The dated name of tick [t] differs from the name in [logName]. *)
Definition rotates (t : Tick) (st : State) : bool :=
  negb (String.eqb (dated_logName (today t)) (logName st)).

(** The events of one iteration of the loop that starts with the log open:
    those of the temperature check; then, when it returned, those of the log
    rotation, if any; then, unless the rotation failed, the sleep. *)
Definition tick_events (t : Tick) (st : State) : list event :=
  check_events t st ++
  if returns (check_outcome t st) then
    if rotates t st then
      FileClose (name (fileLog st)) :: FileOpen (dated_logName (today t)) ::
      (if open_ok t then [System sweep_command; Sleep sleepTime] else [])
    else [Sleep sleepTime]
  else [].

(** The events of the handlers of the module-level [try]. *)
Definition handler_events (e : exn) (st : State) : list event :=
  if closed (fileLog st) then []
  else [LogWrite (name (fileLog st))
          [Lit (match e with
                | KeyboardInterrupt => "keyboard exception occurred"
                | _ => "ERROR: an unhandled exception occurred"
                end)];
        GpioCleanup;
        FileClose (name (fileLog st))].

(** A property of traces checked event by event: [step] moves a checker
    state over one event or rejects it. *)
Fixpoint scan {S : Type} (step : S -> event -> option S) (s : S)
    (tr : list event) : option S :=
  match tr with
  | [] => Some s
  | e :: rest =>
      match step s e with
      | Some s' => scan step s' rest
      | None => None
      end
  end.

(** How one iteration of the loop that starts with the log open ends. *)
Definition tick_outcome (t : Tick) (st : State) : outcome unit :=
  match check_outcome t st with
  | Return _ =>
      if rotates t st && negb (open_ok t) then Raise IOError
      else match sleep_signal t with
           | None => Return tt
           | Some SIGINT => Raise KeyboardInterrupt
           | Some SIGTERM => Killed SIGTERM
           end
  | o => o
  end.

(** ** Checkers of traces *)

(** Pace: at most one sensor read, and after it at most one pin write,
    between two sleeps, and every sleep lasts [sleepTime] seconds.  The state
    says whether the sensor was read and whether the pin was written since
    the last sleep. *)
Definition pace_step (s : bool * bool) (e : event) : option (bool * bool) :=
  match e with
  | Popen _ => if fst s then None else Some (true, snd s)
  | GpioOutput _ _ => if fst s && negb (snd s) then Some (fst s, true) else None
  | Sleep secs => if (secs =? sleepTime)%Z then Some (false, false) else None
  | _ => Some s
  end.

(** The log line that announces a pin write of [level]. *)
Definition announces (level : bool) (e : event) : bool :=
  match e with
  | LogWrite _ [Lit s; StrF _] =>
      String.eqb s (if level then "Turning fan on " else "Turning fan off ")
  | _ => false
  end.

(** Audit trail: every pin write goes to [pin] and comes right after the log
    line that announces it.  The state is the event before. *)
Definition audit_step (prev : option event) (e : event) : option (option event) :=
  match e with
  | GpioOutput p level =>
      match prev with
      | Some q => if (p =? pin)%Z && announces level q then Some (Some e) else None
      | None => None
      end
  | _ => Some (Some e)
  end.

(** One sink: a file is opened only while none is open, and written and
    closed only while it is the open one.  The state is the path of the open
    sink, if any ([FileOpen] records the call, also when [open] raises). *)
Definition sink_step (cur : option string) (e : event) : option (option string) :=
  match e with
  | FileOpen p =>
      match cur with
      | None => Some (Some p)
      | Some _ => None
      end
  | FileClose p =>
      match cur with
      | Some q => if String.eqb p q then Some None else None
      | None => None
      end
  | LogWrite p _ =>
      match cur with
      | Some q => if String.eqb p q then Some cur else None
      | None => None
      end
  | _ => Some cur
  end.

(** The levels of [l] alternate, starting with [next]. *)
Fixpoint alternates (next : bool) (l : list bool) : bool :=
  match l with
  | [] => true
  | level :: rest => Bool.eqb level next && alternates (negb next) rest
  end.

(** The same, read along a trace: the state is the level the next pin write
    must have. *)
Definition alt_step (next : bool) (e : event) : option bool :=
  match e with
  | GpioOutput _ level => if Bool.eqb level next then Some (negb next) else None
  | _ => Some next
  end.

(** The hysteresis rule on its own: the fan record after a sample. *)
Definition hysteresis (start stop : float) (off : bool) (temp : float) : bool :=
  if PyFloat.gt temp start then false
  else if PyFloat.le temp stop then true
  else off.

(** The samples of the ticks whose sensor read worked. *)
Definition samples_of (ticks : list Tick) : list float :=
  flat_map (fun t => match sample t with
                     | Some temp => [temp]
                     | None => []
                     end) ticks.

(** The pin writes a sequence of samples asks for, from fan record [off]. *)
Fixpoint changes (start stop : float) (off : bool) (samples : list float) : list bool :=
  match samples with
  | [] => []
  | temp :: rest =>
      let off' := hysteresis start stop off temp in
      (if Bool.eqb off off' then [] else [off]) ++ changes start stop off' rest
  end.

Definition is_sleep (e : event) : bool :=
  match e with Sleep _ => true | _ => false end.

Definition is_sweep (e : event) : bool :=
  match e with System _ => true | _ => false end.

(** The number of days a sequence of dates begins: its first date and every
    date that differs from the one before it. *)
Fixpoint day_changes (prev : option Date) (dates : list Date) : nat :=
  match dates with
  | [] => 0
  | d :: rest =>
      (match prev with
       | Some p =>
           if (year p =? year d)%Z && (month p =? month d)%Z && (day p =? day d)%Z
           then 0 else 1
       | None => 1
       end) + day_changes (Some d) rest
  end.

(** The process ended by falling off the end of the script. *)
Definition exited_cleanly (x : status) : bool :=
  match x with
  | Exit 0 => true
  | _ => false
  end.

(** ** Order facts on floats *)

Module PyFloatFacts.
Import PyFloat.

Lemma gt_spec a b : gt a b = SFltb (Prim2SF b) (Prim2SF a).
Proof. unfold PyFloat.gt. apply FloatAxioms.ltb_spec. Qed.

Lemma le_spec a b : le a b = SFleb (Prim2SF a) (Prim2SF b).
Proof. unfold PyFloat.le. apply FloatAxioms.leb_spec. Qed.

(** Order facts on the specification floats; NaN compares with nothing. *)

Ltac pos_cmp := change (PosDef.Pos.compare_cont Eq) with Pos.compare.

Lemma SFltb_irrefl x : SFltb x x = false.
Proof.
  unfold SFltb, SFcompare.
  destruct x as [s|s| |s m e]; try destruct s; try reflexivity;
    pos_cmp; rewrite Z.compare_refl, Pos.compare_refl; reflexivity.
Qed.

Lemma SFltb_SFleb_asym x y : SFltb x y = true -> SFleb y x = false.
Proof.
  unfold SFltb, SFleb, SFcompare.
  destruct x as [sx|sx| |sx mx ex], y as [sy|sy| |sy my ey];
    try destruct sx; try destruct sy; try discriminate; try reflexivity;
    pos_cmp;
    rewrite (Z.compare_antisym ex ey), (Pos.compare_antisym mx my);
    destruct (ex ?= ey)%Z; simpl; try discriminate; try reflexivity;
    destruct (mx ?= my)%positive; simpl; try discriminate; reflexivity.
Qed.

Lemma SFltb_trans x y z : SFltb x y = true -> SFltb y z = true -> SFltb x z = true.
Proof.
  unfold SFltb, SFcompare.
  destruct x as [sx|sx| |sx mx ex], y as [sy|sy| |sy my ey], z as [sz|sz| |sz mz ez];
    try destruct sx; try destruct sy; try destruct sz;
    try discriminate; try reflexivity;
    pos_cmp;
    destruct (ex ?= ey)%Z eqn:Exy; try discriminate;
    destruct (ey ?= ez)%Z eqn:Eyz; try discriminate;
    destruct (mx ?= my)%positive eqn:Mxy; try discriminate;
    destruct (my ?= mz)%positive eqn:Myz; try discriminate;
    intros _ _;
    repeat match goal with
      | H : (_ ?= _)%Z = Eq |- _ => apply Z.compare_eq_iff in H
      | H : (_ ?= _)%Z = Lt |- _ => rewrite Z.compare_lt_iff in H
      | H : (_ ?= _)%Z = Gt |- _ => rewrite Z.compare_gt_iff in H
      | H : (_ ?= _)%positive = Eq |- _ => apply Pos.compare_eq_iff in H
      | H : (_ ?= _)%positive = Lt |- _ => rewrite Pos.compare_lt_iff in H
      | H : (_ ?= _)%positive = Gt |- _ => rewrite Pos.compare_gt_iff in H
      end;
    try (replace (ex ?= ez)%Z with Lt by (symmetry; apply Z.compare_lt_iff; lia));
    try (replace (ex ?= ez)%Z with Gt by (symmetry; apply Z.compare_gt_iff; lia));
    try (replace (ex ?= ez)%Z with Eq by (symmetry; apply Z.compare_eq_iff; lia));
    try (replace (mx ?= mz)%positive with Lt by (symmetry; apply Pos.compare_lt_iff; lia));
    try (replace (mx ?= mz)%positive with Gt by (symmetry; apply Pos.compare_gt_iff; lia));
    reflexivity.
Qed.

Lemma SFltb_SFleb_refl x y : SFltb x y = true -> SFleb x x = true.
Proof.
  unfold SFltb, SFleb, SFcompare.
  destruct x as [sx|sx| |sx mx ex], y as [sy|sy| |sy my ey];
    try destruct sx; try destruct sy; try discriminate; try reflexivity;
    intros _; pos_cmp; rewrite Z.compare_refl, Pos.compare_refl; reflexivity.
Qed.

Lemma SFeqb_not_SFltb x y : SFeqb x y = true -> SFltb y x = false.
Proof.
  unfold SFeqb, SFltb, SFcompare.
  destruct x as [sx|sx| |sx mx ex], y as [sy|sy| |sy my ey];
    try destruct sx; try destruct sy; try discriminate; try reflexivity;
    pos_cmp;
    rewrite (Z.compare_antisym ex ey), (Pos.compare_antisym mx my);
    destruct (ex ?= ey)%Z; simpl; try discriminate; try reflexivity;
    destruct (mx ?= my)%positive; simpl; try discriminate; reflexivity.
Qed.

Lemma SFeqb_SFleb x y : SFeqb x y = true -> SFleb x y = true.
Proof.
  unfold SFeqb, SFleb. destruct (SFcompare x y) as [[]|]; auto.
Qed.

(** The same facts on Python floats. *)

Lemma eq_spec a b : eq a b = SFeqb (Prim2SF a) (Prim2SF b).
Proof. unfold PyFloat.eq. apply FloatAxioms.eqb_spec. Qed.

Lemma eq_not_gt a b : eq a b = true -> gt a b = false.
Proof. rewrite eq_spec, gt_spec. apply SFeqb_not_SFltb. Qed.

Lemma eq_le a b : eq a b = true -> le a b = true.
Proof. rewrite eq_spec, le_spec. apply SFeqb_SFleb. Qed.

Lemma gt_irrefl a : gt a a = false.
Proof. rewrite gt_spec. apply SFltb_irrefl. Qed.

(** With [stop < start], a sample above [start] is never at or below [stop]. *)
Lemma above_not_below t start stop :
  gt start stop = true -> gt t start = true -> le t stop = false.
Proof.
  rewrite !gt_spec, le_spec. intros Hgap Ht.
  apply SFltb_SFleb_asym. eapply SFltb_trans; eassumption.
Qed.

Lemma below_not_above t start stop :
  gt start stop = true -> le t stop = true -> gt t start = false.
Proof.
  intros Hgap Hle. destruct (gt t start) eqn:E; [|reflexivity].
  rewrite (above_not_below _ _ _ Hgap E) in Hle. discriminate.
Qed.

(** A threshold that is below another one is a number, so it is [<=] itself. *)
Lemma le_refl_of_gap start stop : gt start stop = true -> le stop stop = true.
Proof. rewrite gt_spec, le_spec. apply SFltb_SFleb_refl. Qed.

End PyFloatFacts.

(** ** Stepping through the monad *)

Ltac unfold_m :=
  unfold iteration, handler, checkTemperature, getTemperature, setFan,
    Pin_set, rotate_log, open_logName, set_logName, fileLog_close, sleep,
    exitPin, printMsg, emit, set_fanOff, set_myTemp, bind, ret, raise,
    try_except in *.

Lemma commands_app (a b : list event) :
  commands (a ++ b) = commands a ++ commands b.
Proof.
  induction a as [|e a IH]; simpl; [reflexivity|].
  destruct e; simpl; rewrite ?IH; reflexivity.
Qed.

Lemma count_app (p : event -> bool) (a b : list event) :
  count p (a ++ b) = count p a + count p b.
Proof. unfold count. rewrite filter_app, length_app. reflexivity. Qed.

(** *** One iteration always ends: it is never left unfinished *)

Lemma iteration_finishes (t : Tick) (st st' : State) :
  iteration t st <> (Pending, st').
Proof.
  unfold_m.
  destruct (sensor t); [|discriminate]; cbn.
  repeat match goal with
    | |- context [if ?b then _ else _] => destruct b; cbn
    | |- context [match sleep_signal t with _ => _ end] =>
        destruct (sleep_signal t) as [[]|]; cbn
    end; discriminate.
Qed.

(** *** The loop never returns, and composes over its input *)

Lemma loop_never_returns (ticks : list Tick) (st : State) (u : unit) (st' : State) :
  loop ticks st <> (Return u, st').
Proof.
  revert st. induction ticks as [|t rest IH]; intros st; cbn [loop].
  - discriminate.
  - unfold bind. destruct (iteration t st) as [[a|e|s|] st1]; try discriminate.
    apply IH.
Qed.

Lemma loop_app (pre rest : list Tick) (st : State) :
  loop (pre ++ rest) st =
  match loop pre st with
  | (Pending, st') => loop rest st'
  | r => r
  end.
Proof.
  revert st. induction pre as [|t pre IH]; intros st; cbn [loop app].
  - reflexivity.
  - unfold bind. destruct (iteration t st) as [[a|e|s|] st1] eqn:E; try reflexivity.
    + apply IH.
    + exfalso. eapply iteration_finishes. exact E.
Qed.

(** *** What one iteration does to the trace, the thresholds and the fan *)

Ltac branch :=
  repeat match goal with
    | |- context [if ?b then _ else _] => destruct b eqn:?
    | |- context [match sleep_signal ?t with _ => _ end] =>
        destruct (sleep_signal t) as [[]|] eqn:?
    | |- context [match sensor ?t with _ => _ end] =>
        destruct (sensor t) eqn:?
    end.

Ltac proj := cbn [fst snd trace myTemp myFan fileLog logName closed name fanOff
                  startTemperature stopTemperature cpuTemperature negb andb].

Ltac extend_trace :=
  eexists; split; [rewrite <- ?app_assoc; cbn [app]; try reflexivity;
                   try (symmetry; apply app_nil_r) |].

Ltac finish :=
  proj; repeat split; intros; try reflexivity; try discriminate;
  try assumption; try congruence;
  try (destruct (fanOff (myFan _)); simpl in *; congruence).

Lemma checkTemperature_spec (t : Tick) (st : State) :
  exists new,
    trace (snd (checkTemperature t st)) = trace st ++ new /\
    startTemperature (myTemp (snd (checkTemperature t st))) = startTemperature (myTemp st) /\
    stopTemperature (myTemp (snd (checkTemperature t st))) = stopTemperature (myTemp st) /\
    fileLog (snd (checkTemperature t st)) = fileLog st /\
    logName (snd (checkTemperature t st)) = logName st /\
    commands new =
      match decision t st with
      | Some level => if closed (fileLog st) then [] else [level]
      | None => []
      end /\
    count is_cleanup new = 0 /\
    count is_rotation new = 0 /\
    (fst (checkTemperature t st) = Return tt ->
     fanOff (myFan (snd (checkTemperature t st))) =
       match decision t st with
       | Some level => negb level
       | None => fanOff (myFan st)
       end) /\
    (fst (checkTemperature t st) = Return tt ->
     decision t st <> None -> closed (fileLog st) = false).
Proof.
  unfold decision, sample. unfold_m.
  destruct (sensor t) as [res|]; proj.
  - branch; proj; extend_trace; finish.
  - extend_trace; finish.
Qed.

Lemma rotate_log_spec (t : Tick) (st : State) :
  exists new,
    trace (snd (rotate_log t st)) = trace st ++ new /\
    myTemp (snd (rotate_log t st)) = myTemp st /\
    myFan (snd (rotate_log t st)) = myFan st /\
    commands new = [] /\
    count is_cleanup new = 0 /\
    (ready st -> fst (rotate_log t st) = Return tt -> ready (snd (rotate_log t st))).
Proof.
  unfold ready. unfold_m.
  set (tmp := dated_logName (today t)). clearbody tmp.
  branch; proj; extend_trace; finish; tauto.
Qed.

Lemma sleep_spec (t : Tick) (st : State) :
  trace (snd (sleep t st)) = trace st ++ [Sleep sleepTime] /\
  myTemp (snd (sleep t st)) = myTemp st /\
  myFan (snd (sleep t st)) = myFan st /\
  fileLog (snd (sleep t st)) = fileLog st /\
  logName (snd (sleep t st)) = logName st.
Proof.
  unfold_m. branch; finish.
Qed.

Lemma iteration_spec (t : Tick) (st : State) :
  exists new,
    trace (snd (iteration t st)) = trace st ++ new /\
    startTemperature (myTemp (snd (iteration t st))) = startTemperature (myTemp st) /\
    stopTemperature (myTemp (snd (iteration t st))) = stopTemperature (myTemp st) /\
    commands new =
      match decision t st with
      | Some level => if closed (fileLog st) then [] else [level]
      | None => []
      end /\
    count is_cleanup new = 0 /\
    (fst (iteration t st) = Return tt ->
     fanOff (myFan (snd (iteration t st))) =
       match decision t st with
       | Some level => negb level
       | None => fanOff (myFan st)
       end) /\
    (fst (iteration t st) = Return tt ->
     decision t st <> None -> closed (fileLog st) = false) /\
    (ready st -> fst (iteration t st) = Return tt -> ready (snd (iteration t st))).
Proof.
  destruct (checkTemperature_spec t st)
    as (n1 & Htr1 & Hs1 & Hp1 & Hf1 & Hl1 & Hc1 & Hk1 & _ & Hfan1 & Hopen1).
  unfold iteration, bind.
  destruct (checkTemperature t st) as [[[]|e|s|] st1]; cbn [fst snd] in *;
    try (exists n1; repeat split; try assumption; discriminate).
  destruct (rotate_log_spec t st1) as (n2 & Htr2 & HT2 & HF2 & Hc2 & Hk2 & Hr2).
  assert (Hready : ready st -> ready st1).
  { unfold ready. rewrite Hf1, Hl1. tauto. }
  destruct (rotate_log t st1) as [[[]|e|s|] st2]; cbn [fst snd] in *;
    try (exists (n1 ++ n2); rewrite Htr2, Htr1, app_assoc, commands_app, count_app,
           Hc1, Hc2, Hk1, Hk2, app_nil_r, HT2;
         repeat split; try assumption; try reflexivity; discriminate).
  destruct (sleep_spec t st2) as (Htr3 & HT3 & HF3 & Hf3 & Hl3).
  exists (n1 ++ n2 ++ [Sleep sleepTime]).
  rewrite Htr3, Htr2, Htr1, !commands_app, !count_app, Hc1, Hc2, Hk1, Hk2, HT3, HT2, HF3, HF2.
  cbn [commands count filter is_cleanup length app].
  rewrite !app_nil_r, <- !app_assoc.
  repeat apply conj; try assumption; try reflexivity.
  - intros _. apply Hfan1. reflexivity.
  - intros _. apply Hopen1. reflexivity.
  - intros Hst _. unfold ready. rewrite Hf3, Hl3. apply Hr2; auto.
Qed.

(** *** Facts that hold along the loop *)

Lemma loop_spec (ticks : list Tick) (st : State) :
  exists new,
    trace (snd (loop ticks st)) = trace st ++ new /\
    count is_cleanup new = 0 /\
    (fst (loop ticks st) = Pending ->
     startTemperature (myTemp (snd (loop ticks st))) = startTemperature (myTemp st) /\
     stopTemperature (myTemp (snd (loop ticks st))) = stopTemperature (myTemp st) /\
     (ready st -> ready (snd (loop ticks st))) /\
     (records_last_command st -> records_last_command (snd (loop ticks st)))).
Proof.
  revert st. induction ticks as [|t rest IH]; intros st; cbn [loop].
  - exists []. rewrite app_nil_r. cbn. repeat apply conj; auto.
  - destruct (iteration_spec t st) as (n1 & Htr & Hs & Hp & Hc & Hk & Hfan & Hopen & Hr).
    unfold bind.
    destruct (iteration t st) as [[[]|e|s|] st1] eqn:E; cbn [fst snd] in *;
      try (exfalso; eapply iteration_finishes; exact E);
      try (exists n1; repeat split; try assumption; discriminate).
    destruct (IH st1) as (n2 & Htr2 & Hk2 & Hrest).
    exists (n1 ++ n2). rewrite Htr2, Htr, app_assoc, count_app, Hk, Hk2.
    repeat apply conj; try reflexivity.
    intros HP; destruct (Hrest HP) as (Hs2 & Hp2 & Hr2 & Hl2).
    repeat apply conj; try congruence; auto.
    intros Hlast. apply Hl2. unfold records_last_command in *.
    rewrite Htr, commands_app, Hc, (Hfan eq_refl).
    destruct (decision t st) as [level|]; [|rewrite app_nil_r; exact Hlast].
    rewrite (Hopen eq_refl) by discriminate.
    rewrite last_last. reflexivity.
Qed.

(** *** The fan record and the command of one iteration *)

Lemma checkTemperature_fan (t : Tick) (st : State) :
  exists new,
    trace (snd (checkTemperature t st)) = trace st ++ new /\
    (commands new = [] \/ commands new = [fanOff (myFan st)]) /\
    fanOff (myFan (snd (checkTemperature t st))) =
      match commands new with
      | [] => fanOff (myFan st)
      | level :: _ => if gpio_output_ok t then negb level else fanOff (myFan st)
      end.
Proof.
  unfold_m.
  destruct (sensor t) as [res|]; proj.
  - branch; proj; extend_trace; cbn [commands]; auto;
      destruct (fanOff (myFan st)); simpl in *; auto; discriminate.
  - extend_trace; cbn [commands]; auto.
Qed.

Lemma iteration_fan (t : Tick) (st : State) :
  exists new,
    trace (snd (iteration t st)) = trace st ++ new /\
    (commands new = [] \/ commands new = [fanOff (myFan st)]) /\
    fanOff (myFan (snd (iteration t st))) =
      match commands new with
      | [] => fanOff (myFan st)
      | level :: _ => if gpio_output_ok t then negb level else fanOff (myFan st)
      end.
Proof.
  destruct (checkTemperature_fan t st) as (n1 & Htr1 & Hc1 & Hfan1).
  unfold iteration, bind.
  destruct (checkTemperature t st) as [[[]|e|s|] st1]; cbn [fst snd] in *;
    try solve [exists n1; auto].
  destruct (rotate_log_spec t st1) as (n2 & Htr2 & HT2 & HF2 & Hc2 & Hk2 & Hr2).
  destruct (rotate_log t st1) as [[[]|e|s|] st2]; cbn [fst snd] in *;
    try solve [exists (n1 ++ n2);
               rewrite Htr2, Htr1, app_assoc, commands_app, Hc2, app_nil_r, HF2; auto].
  destruct (sleep_spec t st2) as (Htr3 & HT3 & HF3 & Hf3 & Hl3).
  exists (n1 ++ n2 ++ [Sleep sleepTime]).
  rewrite Htr3, Htr2, Htr1, !commands_app, Hc2, HF3, HF2.
  cbn [commands app]. rewrite app_nil_r, <- !app_assoc. auto.
Qed.

(** *** The state in which the loop starts, and the program around the loop *)

Lemma booted_ready (b : Boot) : ready (booted b).
Proof. destruct b as [[] f]; split; reflexivity. Qed.

Lemma booted_state (b : Boot) :
  fanOff (myFan (booted b)) = true /\
  startTemperature (myTemp (booted b)) = 67%float /\
  stopTemperature (myTemp (booted b)) = 62%float /\
  logName (booted b) = default_logName /\
  fileLog (booted b) = mkFile default_logName false /\
  commands (trace (booted b)) = [] /\
  count is_cleanup (trace (booted b)) = 0.
Proof. destruct b as [[] f]; repeat split; reflexivity. Qed.

Lemma booted_records (b : Boot) : records_last_command (booted b).
Proof. destruct b as [[] f]; reflexivity. Qed.

Lemma main_enters_loop (b : Boot) (ticks : list Tick) :
  main b ticks init_state = try_except (loop ticks) handler (booted b).
Proof. destruct b as [[] f]; reflexivity. Qed.

Lemma run_fan_running (b : Boot) (ticks : list Tick) (st : State) :
  run_fan b ticks = (Running, st) <-> loop ticks (booted b) = (Pending, st).
Proof.
  unfold run_fan. rewrite main_enters_loop. unfold try_except.
  destruct (loop ticks (booted b)) as [[[]|e|s|] st1] eqn:E.
  - exfalso. eapply loop_never_returns. exact E.
  - split; intros H; [|discriminate].
    exfalso. revert H. unfold_m.
    destruct e; proj; destruct (closed (fileLog st1)) eqn:Hc; proj;
      rewrite ?Hc; proj; intros H; discriminate.
  - split; intros H; discriminate.
  - split; intros H; inversion H; reflexivity.
Qed.

Lemma run_fan_raise (b : Boot) (ticks : list Tick) (e : exn) (st : State) :
  loop ticks (booted b) = (Raise e, st) ->
  closed (fileLog st) = false ->
  run_fan b ticks =
  (Exit 0,
   mkState (logName st) (mkFile (name (fileLog st)) true) (myFan st) (myTemp st)
     (trace st ++
      [LogWrite (name (fileLog st))
         [Lit (match e with
               | KeyboardInterrupt => "keyboard exception occurred"
               | _ => "ERROR: an unhandled exception occurred"
               end)];
       GpioCleanup;
       FileClose (name (fileLog st))])).
Proof.
  intros E Hopen. unfold run_fan. rewrite main_enters_loop. unfold try_except.
  rewrite E. unfold_m.
  destruct e; repeat (proj; rewrite ?Hopen); rewrite <- !app_assoc; reflexivity.
Qed.

(** Every state in which a tick of a run starts has the log open under the
    name in [logName] and the thresholds 67.0 and 62.0, the second below the
    first. *)
Lemma run_fan_running_state (b : Boot) (ticks : list Tick) (st : State) :
  run_fan b ticks = (Running, st) ->
  ready st /\
  startTemperature (myTemp st) = 67%float /\
  stopTemperature (myTemp st) = 62%float /\
  PyFloat.gt (startTemperature (myTemp st)) (stopTemperature (myTemp st)) = true.
Proof.
  intros H. apply run_fan_running in H.
  destruct (loop_spec ticks (booted b)) as (n & _ & _ & Hkeep).
  rewrite H in Hkeep. cbn [fst snd] in Hkeep.
  destruct (Hkeep eq_refl) as (Hs & Hp & Hready & _).
  destruct (booted_state b) as (_ & Hs0 & Hp0 & _).
  rewrite Hs0 in Hs. rewrite Hp0 in Hp.
  split; [apply Hready, booted_ready|].
  split; [exact Hs|]. split; [exact Hp|].
  rewrite Hs, Hp. reflexivity.
Qed.

(** *** Dated log names *)

Module DateFacts.
Local Open Scope Z_scope.

Lemma digit_code (n : Z) : N_of_ascii (digit n) = Z.to_N (48 + n mod 10).
Proof.
  unfold digit. apply N_ascii_embedding.
  pose proof (Z.mod_pos_bound n 10 ltac:(lia)). lia.
Qed.

Lemma digit_inj (a b : Z) : digit a = digit b -> a mod 10 = b mod 10.
Proof.
  intros H. apply (f_equal N_of_ascii) in H. rewrite !digit_code in H.
  pose proof (Z.mod_pos_bound a 10 ltac:(lia)).
  pose proof (Z.mod_pos_bound b 10 ltac:(lia)). lia.
Qed.

Lemma digit_not_letter_d (n : Z) : digit n <> "d"%char.
Proof.
  intros H. apply (f_equal N_of_ascii) in H. rewrite digit_code in H.
  pose proof (Z.mod_pos_bound n 10 ltac:(lia)).
  change (N_of_ascii "d") with 100%N in H. lia.
Qed.

Lemma four_digits_inj (a b : Z) :
  0 <= a <= 9999 -> 0 <= b <= 9999 ->
  (a / 1000) mod 10 = (b / 1000) mod 10 ->
  (a / 100) mod 10 = (b / 100) mod 10 ->
  (a / 10) mod 10 = (b / 10) mod 10 ->
  a mod 10 = b mod 10 ->
  a = b.
Proof. intros. Z.to_euclidean_division_equations. lia. Qed.

Lemma two_digits_inj (a b : Z) :
  0 <= a <= 99 -> 0 <= b <= 99 ->
  (a / 10) mod 10 = (b / 10) mod 10 ->
  a mod 10 = b mod 10 ->
  a = b.
Proof. intros. Z.to_euclidean_division_equations. lia. Qed.

Lemma valid_date_bounds (d : Date) :
  valid_date d = true ->
  1000 <= year d <= 9999 /\ 1 <= month d <= 12 /\ 1 <= day d <= 31.
Proof.
  unfold valid_date. rewrite !andb_true_iff, !Z.leb_le. tauto.
Qed.

Lemma dateStamp_inj (d0 d1 : Date) :
  valid_date d0 = true -> valid_date d1 = true ->
  dateStamp d0 = dateStamp d1 -> d0 = d1.
Proof.
  intros V0 V1 H.
  apply valid_date_bounds in V0, V1.
  unfold dateStamp in H.
  injection H as Hy3 Hy2 Hy1 Hy0 Hm1 Hm0 Hd1 Hd0.
  apply digit_inj in Hy3, Hy2, Hy1, Hy0, Hm1, Hm0, Hd1, Hd0.
  destruct d0 as [y0 m0 a0], d1 as [y1 m1 a1]; cbn [year month day] in *.
  f_equal.
  - apply four_digits_inj; auto; lia.
  - apply two_digits_inj; auto; lia.
  - apply two_digits_inj; auto; lia.
Qed.

Lemma dated_logName_inj (d0 d1 : Date) :
  valid_date d0 = true -> valid_date d1 = true ->
  dated_logName d0 = dated_logName d1 -> d0 = d1.
Proof.
  intros V0 V1 H. apply dateStamp_inj; auto.
  unfold dated_logName, dateStamp in *. cbn [append] in H.
  injection H as -> -> -> -> -> -> -> ->. reflexivity.
Qed.

Lemma dated_logName_not_default (d : Date) : dated_logName d <> default_logName.
Proof.
  unfold dated_logName, dateStamp, default_logName. cbn [append].
  intros H. injection H as H _. exact (digit_not_letter_d _ H).
Qed.

End DateFacts.

(** *** Runs of samples that leave the fan alone, or change it once *)

Lemma decision_level (t : Tick) (st : State) (level : bool) :
  decision t st = Some level -> level = fanOff (myFan st).
Proof.
  unfold decision. destruct (sample t) as [temp|]; [|discriminate].
  destruct (PyFloat.gt temp (startTemperature (myTemp st))),
    (PyFloat.le temp (stopTemperature (myTemp st))), (fanOff (myFan st));
    cbn; congruence.
Qed.

Section Runs.

Variables start stop : float.

Lemma settled_run (f : bool) (mid : list Tick) :
  settled_at start stop f mid ->
  forall st, tuned start stop st -> fanOff (myFan st) = f ->
    commands (trace (snd (loop mid st))) = commands (trace st).
Proof.
  induction mid as [|t rest IH]; intros Hset st Htuned Hfan; cbn [loop].
  - reflexivity.
  - destruct (iteration_spec t st) as (n1 & Htr & Hs & Hp & Hc & _ & Hfan1 & _ & _).
    rewrite (Hset t st (or_introl eq_refl) Htuned Hfan) in Hc, Hfan1.
    assert (Hsame : commands (trace (snd (iteration t st))) = commands (trace st)).
    { rewrite Htr, commands_app, Hc. apply app_nil_r. }
    unfold bind.
    destruct (iteration t st) as [[[]|e|s|] st1]; cbn [fst snd] in *; try exact Hsame.
    rewrite IH; [exact Hsame | | |].
    + intros t' st' Hin. apply Hset. right. exact Hin.
    + destruct Htuned. split; congruence.
    + rewrite Hfan1 by reflexivity. exact Hfan.
Qed.

Lemma drives_to_settled (f : bool) (mid : list Tick) :
  drives_to start stop f mid -> settled_at start stop f mid.
Proof.
  intros Hd t st Hin Htuned Hfan. specialize (Hd t st Hin Htuned).
  destruct (decision t st) as [level|] eqn:E; [|reflexivity].
  apply decision_level in E. subst level. rewrite Hfan in Hd.
  destruct f; discriminate.
Qed.

Lemma one_change_run (f : bool) (mid : list Tick) :
  drives_to start stop f mid ->
  forall st, tuned start stop st ->
    exists extra,
      commands (trace (snd (loop mid st))) = commands (trace st) ++ extra /\
      length extra <= 1.
Proof.
  induction mid as [|t rest IH]; intros Hd st Htuned; cbn [loop].
  - exists []. rewrite app_nil_r. split; [reflexivity | cbn; lia].
  - destruct (iteration_spec t st) as (n1 & Htr & Hs & Hp & Hc & _ & Hfan1 & _ & _).
    assert (Hrest : drives_to start stop f rest).
    { intros t' st' Hin. apply Hd. right. exact Hin. }
    assert (Hlen : length (commands n1) <= 1).
    { rewrite Hc. destruct (decision t st), (closed (fileLog st)); cbn; lia. }
    assert (Hnow : commands (trace (snd (iteration t st))) =
                   commands (trace st) ++ commands n1).
    { rewrite Htr. apply commands_app. }
    pose proof (Hd t st (or_introl eq_refl) Htuned) as Hdt.
    unfold bind.
    destruct (iteration t st) as [[[]|e|s|] st1]; cbn [fst snd] in *;
      try (exists (commands n1); split; assumption).
    assert (Htuned1 : tuned start stop st1) by (destruct Htuned; split; congruence).
    exists (commands n1). split; [|exact Hlen].
    rewrite <- Hnow. apply (settled_run f rest).
    + apply drives_to_settled. exact Hrest.
    + exact Htuned1.
    + rewrite Hfan1 by reflexivity. destruct (decision t st); exact Hdt.
Qed.

End Runs.

Lemma in_run_above (start stop : float) (mid : list Tick) :
  forallb (in_run AboveStart start stop) mid = true ->
  drives_to start stop false mid.
Proof.
  rewrite forallb_forall. intros Hall t st Hin [Hs Hp].
  specialize (Hall t Hin). unfold in_run in Hall. unfold decision.
  destruct (sample t) as [temp|]; [|discriminate].
  rewrite Hs, Hall. destruct (fanOff (myFan st)); reflexivity.
Qed.

Lemma in_run_below (start stop : float) (mid : list Tick) :
  PyFloat.gt start stop = true ->
  forallb (in_run AtOrBelowStop start stop) mid = true ->
  drives_to start stop true mid.
Proof.
  rewrite forallb_forall. intros Hgap Hall t st Hin [Hs Hp].
  specialize (Hall t Hin). unfold in_run in Hall. unfold decision.
  destruct (sample t) as [temp|]; [|discriminate].
  rewrite Hs, Hp, Hall, (PyFloatFacts.below_not_above _ _ _ Hgap Hall).
  destruct (fanOff (myFan st)); reflexivity.
Qed.

Lemma in_run_band (start stop : float) (f : bool) (mid : list Tick) :
  forallb (in_run DeadBand start stop) mid = true ->
  settled_at start stop f mid.
Proof.
  rewrite forallb_forall. intros Hall t st Hin [Hs Hp] _.
  specialize (Hall t Hin). unfold in_run in Hall. unfold decision.
  destruct (sample t) as [temp|]; [|discriminate].
  rewrite Hs, Hp. apply andb_true_iff in Hall. destruct Hall as [Ha Hb].
  apply negb_true_iff in Ha, Hb. rewrite Ha, Hb. reflexivity.
Qed.

Lemma run_within_budget (k : run_kind) (st : State) (mid : list Tick) :
  PyFloat.gt (startTemperature (myTemp st)) (stopTemperature (myTemp st)) = true ->
  forallb (in_run k (startTemperature (myTemp st)) (stopTemperature (myTemp st))) mid = true ->
  exists extra,
    commands (trace (snd (loop mid st))) = commands (trace st) ++ extra /\
    length extra <= budget k.
Proof.
  intros Hgap Hall.
  assert (Htuned : tuned (startTemperature (myTemp st)) (stopTemperature (myTemp st)) st)
    by (split; reflexivity).
  destruct k; cbn [budget].
  - eapply one_change_run; [apply in_run_above; exact Hall | exact Htuned].
  - eapply one_change_run; [apply in_run_below; eassumption | exact Htuned].
  - exists []. rewrite app_nil_r. split; [|reflexivity].
    eapply settled_run; [apply in_run_band; exact Hall | exact Htuned | reflexivity].
Qed.

(** *** How single iterations fail *)

Lemma iteration_unreadable (t : Tick) (st : State) :
  sensor t = None ->
  iteration t st =
  (Raise ValueError,
   mkState (logName st) (fileLog st) (myFan st) (myTemp st)
     (trace st ++ [Popen "cat /sys/class/thermal/thermal_zone0/temp"])).
Proof. intros H. unfold_m. rewrite H. reflexivity. Qed.

Lemma iteration_interrupted (t : Tick) (st st' : State) :
  iteration (without_signal t) st = (Return tt, st') ->
  sleep_signal t = Some SIGINT ->
  iteration t st = (Raise KeyboardInterrupt, st').
Proof.
  unfold iteration, bind.
  change (checkTemperature (without_signal t)) with (checkTemperature t).
  change (rotate_log (without_signal t)) with (rotate_log t).
  destruct (checkTemperature t st) as [[[]|e|s|] st1]; try discriminate.
  destruct (rotate_log t st1) as [[[]|e|s|] st2]; try discriminate.
  unfold_m. cbn [sleep_signal without_signal]. intros H Hsig. rewrite Hsig.
  inversion H. reflexivity.
Qed.

Lemma iteration_ends_asleep (t : Tick) (st st' : State) :
  iteration t st = (Return tt, st') ->
  exists before, trace st' = before ++ [Sleep sleepTime].
Proof.
  unfold iteration, bind.
  destruct (checkTemperature t st) as [[[]|e|s|] st1]; try discriminate.
  destruct (rotate_log t st1) as [[[]|e|s|] st2]; try discriminate.
  intros H. destruct (sleep_spec t st2) as (Htr & _). rewrite H in Htr.
  exists (trace st2). exact Htr.
Qed.




(** *** Rotation, step by step *)

Lemma rotate_log_same_name (t : Tick) (st : State) :
  dated_logName (today t) = logName st -> rotate_log t st = (Return tt, st).
Proof.
  intros H. unfold rotate_log. rewrite H, String.eqb_refl. reflexivity.
Qed.

Lemma rotate_log_new_name (t : Tick) (st : State) :
  dated_logName (today t) <> logName st ->
  closed (fileLog st) = false ->
  rotate_log t st =
  (if open_ok t then Return tt else Raise IOError,
   mkState (dated_logName (today t))
     (if open_ok t then mkFile (dated_logName (today t)) false
      else mkFile (name (fileLog st)) true)
     (myFan st) (myTemp st)
     (trace st ++
      FileClose (name (fileLog st)) :: FileOpen (dated_logName (today t)) ::
      (if open_ok t then [System sweep_command] else []))).
Proof.
  intros Hne Hopen. unfold rotate_log.
  apply String.eqb_neq in Hne. rewrite Hne. cbn [negb].
  set (tmp := dated_logName (today t)). clearbody tmp.
  unfold_m. repeat (proj; rewrite ?Hopen).
  destruct (open_ok t); proj; rewrite <- ?app_assoc; reflexivity.
Qed.

Lemma iteration_after_check (t : Tick) (st st1 : State) :
  checkTemperature t st = (Return tt, st1) ->
  iteration t st = (rotate_log t ;; sleep t) st1 /\
  logName st1 = logName st /\ fileLog st1 = fileLog st.
Proof.
  intros H.
  destruct (checkTemperature_spec t st) as (_ & _ & _ & _ & Hf & Hl & _).
  rewrite H in Hf, Hl. cbn [snd] in Hf, Hl.
  unfold iteration. unfold bind at 1. rewrite H. auto.
Qed.

(** *** The pattern of dated names, and ticks whose check fails *)

Lemma mod10_is_digit (x : Z) : (0 <= x mod 10 <= 9)%Z.
Proof. pose proof (Z.mod_pos_bound x 10 ltac:(lia)). lia. Qed.

Lemma iteration_check_fails (t : Tick) (st st1 : State) (o : outcome unit) :
  checkTemperature t st = (o, st1) ->
  o <> Return tt ->
  iteration t st = (o, st1) /\
  logName st1 = logName st /\
  fileLog st1 = fileLog st /\
  count is_rotation (trace st1) = count is_rotation (trace st).
Proof.
  intros H Ho.
  destruct (checkTemperature_spec t st) as (n & Htr & _ & _ & Hf & Hl & _ & _ & Hk & _).
  rewrite H in Htr, Hf, Hl. cbn [snd] in Htr, Hf, Hl.
  repeat split; auto.
  - unfold iteration. unfold bind at 1. rewrite H.
    destruct o as [[]|e|sg|]; try reflexivity. contradiction Ho. reflexivity.
  - rewrite Htr, count_app, Hk. apply Nat.add_0_r.
Qed.

(** The dated name, character by character: the directory, the prefix, a
    dash, the four decimal digits of the year, a dot, the two of the month,
    a dot, the two of the day, and [.log]. *)
Lemma dated_logName_pattern (d : Date) :
  valid_date d = true ->
  exists y3 y2 y1 y0 m1 m0 a1 a0 : Z,
    Forall (fun k => 0 <= k <= 9)%Z [y3; y2; y1; y0; m1; m0; a1; a0] /\
    (year d = 1000 * y3 + 100 * y2 + 10 * y1 + y0)%Z /\
    (month d = 10 * m1 + m0)%Z /\
    (day d = 10 * a1 + a0)%Z /\
    dated_logName d =
      ("/home/pi/run-fan/logs/" ++ "run-fan" ++ "-" ++
       String (ascii_of_N (Z.to_N (48 + y3))) (String (ascii_of_N (Z.to_N (48 + y2)))
       (String (ascii_of_N (Z.to_N (48 + y1))) (String (ascii_of_N (Z.to_N (48 + y0)))
       (String "."
       (String (ascii_of_N (Z.to_N (48 + m1))) (String (ascii_of_N (Z.to_N (48 + m0)))
       (String "."
       (String (ascii_of_N (Z.to_N (48 + a1))) (String (ascii_of_N (Z.to_N (48 + a0)))
       ".log"))))))))))%string.
Proof.
  intros V. apply DateFacts.valid_date_bounds in V.
  exists ((year d / 1000) mod 10)%Z, ((year d / 100) mod 10)%Z,
         ((year d / 10) mod 10)%Z, (year d mod 10)%Z,
         ((month d / 10) mod 10)%Z, (month d mod 10)%Z,
         ((day d / 10) mod 10)%Z, (day d mod 10)%Z.
  split; [|split; [|split; [|split]]].
  - repeat (apply Forall_cons; [apply mod10_is_digit|]). apply Forall_nil.
  - Z.to_euclidean_division_equations. lia.
  - Z.to_euclidean_division_equations. lia.
  - Z.to_euclidean_division_equations. lia.
  - reflexivity.
Qed.

(** * The claims *)

(** C1 -- the decision of one tick.  With a sample [temp] read without
    error, a log that is open and a driver write that returns, and with
    [stop < start]: when [temp > start] and the fan is recorded off, the tick
    logs, commands the pin high and records the fan on; otherwise, when
    [temp <= stop] and the fan is recorded on, it logs, commands the pin low
    and records the fan off; otherwise it commands nothing and the record is
    unchanged.  A sample equal to [start] with the fan off commands nothing; a
    sample equal to [stop] with the fan on turns it off. *)
Theorem C1_tick_decision (t : Tick) (st : State) (res : float) :
  sensor t = Some res ->
  gpio_output_ok t = true ->
  closed (fileLog st) = false ->
  PyFloat.gt (startTemperature (myTemp st)) (stopTemperature (myTemp st)) = true ->
  let temp := (res / 1000)%float in
  let start := startTemperature (myTemp st) in
  let stop := stopTemperature (myTemp st) in
  let st' := snd (checkTemperature t st) in
  let read := Popen "cat /sys/class/thermal/thermal_zone0/temp" in
  let turn_on :=
    [read; LogWrite (name (fileLog st)) [Lit "Turning fan on "; StrF temp];
     GpioOutput pin true] in
  let turn_off :=
    [read; LogWrite (name (fileLog st)) [Lit "Turning fan off "; StrF temp];
     GpioOutput pin false] in
  fst (checkTemperature t st) = Return tt /\
  (if PyFloat.gt temp start && fanOff (myFan st) then
     trace st' = trace st ++ turn_on /\ fanOff (myFan st') = false
   else if PyFloat.le temp stop && negb (fanOff (myFan st)) then
     trace st' = trace st ++ turn_off /\ fanOff (myFan st') = true
   else
     trace st' = trace st ++ [read] /\ fanOff (myFan st') = fanOff (myFan st)) /\
  (PyFloat.eq temp start = true -> fanOff (myFan st) = true ->
   trace st' = trace st ++ [read] /\ fanOff (myFan st') = true) /\
  (PyFloat.eq temp stop = true -> fanOff (myFan st) = false ->
   trace st' = trace st ++ turn_off /\ fanOff (myFan st') = true).
Proof.
  intros Hres Hgpio Hopen Hgap. cbv zeta.
  unfold_m. rewrite Hres. proj.
  set (temp := (res / 1000)%float).
  assert (Hexcl : PyFloat.gt temp (startTemperature (myTemp st)) = true ->
                  PyFloat.le temp (stopTemperature (myTemp st)) = false).
  { apply PyFloatFacts.above_not_below. exact Hgap. }
  destruct (PyFloat.gt temp (startTemperature (myTemp st))) eqn:Habove;
    destruct (PyFloat.le temp (stopTemperature (myTemp st))) eqn:Hbelow;
    destruct (fanOff (myFan st)) eqn:Hfan;
    try (specialize (Hexcl eq_refl); discriminate);
    repeat (proj; rewrite ?Hopen, ?Hgpio, ?Hfan); cbn [andb negb];
    rewrite <- ?app_assoc; cbn [app];
    repeat apply conj; try reflexivity;
    intros He Hf; try discriminate;
    first [ split; reflexivity
          | apply PyFloatFacts.eq_not_gt in He; congruence
          | apply PyFloatFacts.eq_le in He; congruence ].
Qed.

(** C1, at a sample: the first hot reading after start-up turns the fan on. *)
Lemma C1_tick_decision_witness :
  fanOff (myFan (snd (checkTemperature (quiet day1 68000) (booted boot_ok)))) = false.
Proof.
  destruct (C1_tick_decision (quiet day1 68000) (booted boot_ok) 68000%float
              eq_refl eq_refl eq_refl eq_refl) as (_ & H & _).
  exact (proj2 H).
Defined.

(** C2, as the code has it -- a failed temperature read ends the loop.  When
    the ticks of [pre] have completed and the next read fails, that tick
    commands nothing and leaves the fan record alone; the [ValueError] is
    caught by the catch-all handler around the loop, which logs it as an
    unhandled exception, releases the GPIO and closes the log; the process
    then ends with status 0, and no later tick is run. *)
Theorem C2_sensor_failure_ends_loop
    (b : Boot) (pre post : list Tick) (bad : Tick) (st : State) :
  run_fan b pre = (Running, st) ->
  sensor bad = None ->
  run_fan b (pre ++ bad :: post) =
  (Exit 0,
   mkState (logName st) (mkFile (logName st) true) (myFan st) (myTemp st)
     (trace st ++
      [Popen "cat /sys/class/thermal/thermal_zone0/temp";
       LogWrite (logName st) [Lit "ERROR: an unhandled exception occurred"];
       GpioCleanup;
       FileClose (logName st)])).
Proof.
  intros Hpre Hbad. apply run_fan_running in Hpre.
  destruct (loop_spec pre (booted b)) as (n & _ & _ & Hkeep).
  rewrite Hpre in Hkeep. cbn [fst snd] in Hkeep.
  destruct (Hkeep eq_refl) as (_ & _ & Hready & _).
  destruct (Hready (booted_ready b)) as [Hopen Hname].
  assert (Hloop : loop (pre ++ bad :: post) (booted b) =
                  (Raise ValueError,
                   mkState (logName st) (fileLog st) (myFan st) (myTemp st)
                     (trace st ++ [Popen "cat /sys/class/thermal/thermal_zone0/temp"]))).
  { rewrite loop_app, Hpre. cbn [loop]. unfold bind.
    rewrite (iteration_unreadable bad st Hbad). reflexivity. }
  rewrite (run_fan_raise _ _ _ _ Hloop Hopen).
  proj. rewrite Hname, <- app_assoc. reflexivity.
Qed.

(** C2, at a sample: one good tick, then an unreadable sensor. *)
Lemma C2_sensor_failure_ends_loop_witness :
  fst (run_fan boot_ok ([quiet day1 50000] ++ unreadable day1 :: [quiet day1 50000])) = Exit 0.
Proof.
  assert (Hpre : run_fan boot_ok [quiet day1 50000] =
                 (Running, snd (run_fan boot_ok [quiet day1 50000])))
    by (vm_compute; reflexivity).
  rewrite (C2_sensor_failure_ends_loop boot_ok [quiet day1 50000] [quiet day1 50000]
             (unreadable day1) _ Hpre eq_refl).
  reflexivity.
Defined.

(** C2 as stated fails: with an unreadable sensor on the first tick and a
    good tick to follow, the process has exited instead of still running, the
    sensor was read once only, and the GPIO has been released. *)
Lemma C2_counterexample :
  fst (run_fan boot_ok [unreadable day1; quiet day1 50000]) = Exit 0 /\
  fst (run_fan boot_ok [quiet day1 50000; quiet day1 50000]) = Running /\
  count is_popen (trace (snd (run_fan boot_ok [unreadable day1; quiet day1 50000]))) = 1 /\
  trace (snd (run_fan boot_ok [unreadable day1; quiet day1 50000])) =
    trace (booted boot_ok) ++
    [Popen "cat /sys/class/thermal/thermal_zone0/temp";
     LogWrite default_logName [Lit "ERROR: an unhandled exception occurred"];
     GpioCleanup;
     FileClose default_logName].
Proof. repeat split; vm_compute; reflexivity. Qed.

(** C3 -- no chatter.  Whatever ticks [pre] came before, a contiguous run
    [mid] of samples all above [start], or all at or below [stop], adds at
    most one driver command to those issued up to the end of [pre], and a run
    of samples inside the dead band adds none. *)
Theorem C3_no_chatter (k : run_kind) (st : State) (pre mid : list Tick) :
  PyFloat.gt (startTemperature (myTemp st)) (stopTemperature (myTemp st)) = true ->
  forallb (in_run k (startTemperature (myTemp st)) (stopTemperature (myTemp st))) mid = true ->
  exists extra,
    commands (trace (snd (loop (pre ++ mid) st))) =
    commands (trace (snd (loop pre st))) ++ extra /\
    length extra <= budget k.
Proof.
  intros Hgap Hall. rewrite loop_app.
  destruct (loop_spec pre st) as (n & _ & _ & Hkeep).
  destruct (loop pre st) as [[[]|e|s|] st1]; cbn [fst snd] in *;
    try (exists []; rewrite app_nil_r; split; [reflexivity | apply Nat.le_0_l]).
  destruct (Hkeep eq_refl) as (Hs & Hp & _).
  apply run_within_budget; rewrite Hs, Hp; assumption.
Qed.

(** C3, at a sample: after the scenario's first sample, two samples above
    the start threshold add at most one command. *)
Lemma C3_no_chatter_witness :
  exists extra,
    commands (trace (snd (loop ([quiet day1 50000] ++ [quiet day1 68000; quiet day1 90000])
                               (booted boot_ok)))) =
    commands (trace (snd (loop [quiet day1 50000] (booted boot_ok)))) ++ extra /\
    length extra <= 1.
Proof.
  exact (C3_no_chatter AboveStart (booted boot_ok) [quiet day1 50000]
           [quiet day1 68000; quiet day1 90000] eq_refl eq_refl).
Defined.

(** C4, as the code has it -- the scenario of the specification.  The
    program starts with thresholds 67.0 and 62.0 and the fan recorded off;
    over the samples 50, 68, 65, 61, 63, 90 it issues three driver commands:
    high at 68, low at 61 and, the fan being off again by then, high at 90.
    It commands nothing at 50, 65 and 63. *)
Theorem C4_scenario (b : Boot) :
  startTemperature (myTemp (booted b)) = 67%float /\
  stopTemperature (myTemp (booted b)) = 62%float /\
  fanOff (myFan (booted b)) = true /\
  map sample scenario = [Some 50; Some 68; Some 65; Some 61; Some 63; Some 90]%float /\
  map (issued_by_tick b scenario) [0; 1; 2; 3; 4; 5] =
    [[]; [true]; []; [false]; []; [true]] /\
  commands (trace (snd (run_fan b scenario))) = [true; false; true].
Proof.
  destruct b as [[] f]; repeat split; vm_compute; reflexivity.
Qed.

(** C4 as stated fails: the sample 90 arrives with the fan recorded off (it
    was turned off at 61 and 63 lies in the dead band), so a third command is
    issued there. *)
Lemma C4_counterexample :
  fanOff (myFan (snd (run_fan boot_ok (firstn 5 scenario)))) = true /\
  issued_by_tick boot_ok scenario 5 = [true] /\
  commands (trace (snd (run_fan boot_ok scenario))) = [true; false; true].
Proof. repeat split; vm_compute; reflexivity. Qed.

(** C5 -- the fan record is a debouncing cache.  A tick issues at most one
    driver command, and only for the level opposite to the recorded state
    (high exactly when the fan is recorded off); when the write returns the
    record becomes the commanded state, and without a command it does not
    change.  Hence after every completed tick of a run the record is the
    last commanded level (off before any command). *)
Theorem C5_fan_record_is_last_command :
  (forall (t : Tick) (st : State),
     exists new,
       trace (snd (iteration t st)) = trace st ++ new /\
       (commands new = [] \/ commands new = [fanOff (myFan st)]) /\
       fanOff (myFan (snd (iteration t st))) =
         match commands new with
         | [] => fanOff (myFan st)
         | level :: _ =>
             if gpio_output_ok t then negb level else fanOff (myFan st)
         end) /\
  (forall (b : Boot) (ticks : list Tick) (st : State),
     run_fan b ticks = (Running, st) -> records_last_command st).
Proof.
  split.
  - exact iteration_fan.
  - intros b ticks st H. apply run_fan_running in H.
    destruct (loop_spec ticks (booted b)) as (n & _ & _ & Hkeep).
    rewrite H in Hkeep. cbn [fst snd] in Hkeep.
    destruct (Hkeep eq_refl) as (_ & _ & _ & Hlast).
    apply Hlast. apply booted_records.
Qed.

(** C6, on the code -- a failed GPIO set-up is logged and then ignored.
    [Pin.__init__] catches the error, logs the hint about sudo and returns
    (its [exit] is a bare name, not a call); the script then builds the fan
    and the thresholds and enters the loop, whatever the ticks.  Here two
    cool ticks are run, sleep included, and the process is still running. *)
Theorem C6_failed_setup_still_polls :
  (forall ticks : list Tick,
     main boot_failed ticks init_state =
     try_except (loop ticks) handler (booted boot_failed)) /\
  run_fan boot_failed [quiet day1 50000; quiet day1 50000] =
  (Running,
   mkState (dated_logName day1) (mkFile (dated_logName day1) false)
     (mkFan true) (mkTemperature 50 67 62)
     [FileOpen default_logName;
      LogWrite default_logName [Lit "Starting: run-fan"];
      GpioSetmode; GpioSetwarnings; GpioSetup 25;
      LogWrite default_logName
        [Lit "If method setup doesn't work, need to run script as sudo"];
      LogWrite default_logName [Lit "Start fan at: "; StrF 67];
      LogWrite default_logName [Lit "Stop fan at: "; StrF 62];
      Popen "cat /sys/class/thermal/thermal_zone0/temp";
      FileClose default_logName;
      FileOpen (dated_logName day1);
      System sweep_command;
      Sleep 30;
      Popen "cat /sys/class/thermal/thermal_zone0/temp";
      Sleep 30]).
Proof.
  split.
  - intros ticks. apply main_enters_loop.
  - vm_compute. reflexivity.
Qed.




(** C8, as the code has it -- an interrupt during the sleep.  When SIGINT
    arrives while tick [t] sleeps (the ticks before it and [t] itself up to
    its sleep having completed), no later tick is run: the handler logs the
    keyboard exception, releases the GPIO, which happens once in the whole
    run, and closes the log; the process ends with status 0. *)
Theorem C8_interrupt_mid_sleep
    (b : Boot) (pre post : list Tick) (t : Tick) (st : State) :
  run_fan b (pre ++ [without_signal t]) = (Running, st) ->
  sleep_signal t = Some SIGINT ->
  (exists before, trace st = before ++ [Sleep sleepTime]) /\
  run_fan b (pre ++ t :: post) =
  (Exit 0,
   mkState (logName st) (mkFile (logName st) true) (myFan st) (myTemp st)
     (trace st ++
      [LogWrite (logName st) [Lit "keyboard exception occurred"];
       GpioCleanup;
       FileClose (logName st)])) /\
  count is_cleanup (trace (snd (run_fan b (pre ++ t :: post)))) = 1.
Proof.
  intros Hrun Hsig. apply run_fan_running in Hrun.
  destruct (loop_spec (pre ++ [without_signal t]) (booted b)) as (n & Htr & Hk & Hkeep).
  rewrite Hrun in Htr, Hkeep. cbn [fst snd] in Htr, Hkeep.
  destruct (Hkeep eq_refl) as (_ & _ & Hready & _).
  destruct (Hready (booted_ready b)) as [Hopen Hname].
  rewrite loop_app in Hrun.
  destruct (loop pre (booted b)) as [[[]|e|s|] st1] eqn:Hpre; try discriminate.
  cbn [loop] in Hrun. unfold bind in Hrun.
  destruct (iteration (without_signal t) st1) as [[[]|e|s|] st2] eqn:Hit;
    try discriminate;
    [|exfalso; eapply iteration_finishes; exact Hit].
  inversion Hrun; subst st2.
  assert (Hloop : loop (pre ++ t :: post) (booted b) = (Raise KeyboardInterrupt, st)).
  { rewrite loop_app, Hpre. cbn [loop]. unfold bind.
    rewrite (iteration_interrupted t st1 st Hit Hsig). reflexivity. }
  assert (Hfinal := run_fan_raise _ _ _ _ Hloop Hopen).
  rewrite Hname in Hfinal.
  repeat apply conj.
  - eapply iteration_ends_asleep. exact Hit.
  - exact Hfinal.
  - rewrite Hfinal. cbn [snd trace]. rewrite Htr, !count_app, Hk.
    destruct (booted_state b) as (_ & _ & _ & _ & _ & _ & Hk0). rewrite Hk0.
    reflexivity.
Qed.

(** C8, at a sample: SIGINT during the sleep of the second tick. *)
Lemma C8_interrupt_mid_sleep_witness :
  fst (run_fan boot_ok ([quiet day1 50000] ++ interrupted day1 50000 :: [quiet day1 50000])) =
  Exit 0.
Proof.
  assert (Hrun : run_fan boot_ok ([quiet day1 50000] ++ [without_signal (interrupted day1 50000)]) =
                 (Running,
                  snd (run_fan boot_ok
                         ([quiet day1 50000] ++ [without_signal (interrupted day1 50000)]))))
    by (vm_compute; reflexivity).
  destruct (C8_interrupt_mid_sleep boot_ok [quiet day1 50000] [quiet day1 50000]
              (interrupted day1 50000) _ Hrun eq_refl) as (_ & H & _).
  rewrite H. reflexivity.
Defined.

(** C8 as stated fails for the terminate signal: the script installs no
    handler for it, so a SIGTERM during the sleep ends the process there, by
    the signal and not with status 0; the GPIO is not released and the log
    is left open. *)
Lemma C8_counterexample :
  fst (run_fan boot_ok [terminated day1 50000; quiet day1 50000]) = Signaled SIGTERM /\
  count is_cleanup
    (trace (snd (run_fan boot_ok [terminated day1 50000; quiet day1 50000]))) = 0 /\
  closed (fileLog (snd (run_fan boot_ok [terminated day1 50000; quiet day1 50000]))) = false /\
  trace (snd (run_fan boot_ok [terminated day1 50000; quiet day1 50000])) =
    trace (booted boot_ok) ++
    [Popen "cat /sys/class/thermal/thermal_zone0/temp";
     FileClose default_logName;
     FileOpen (dated_logName day1);
     System sweep_command;
     Sleep 30].
Proof. repeat split; vm_compute; reflexivity. Qed.

(** C9, as the code has it -- daily rotation.  The dated name is
    [<log-dir>/<prefix>-<YYYY.MM.DD>.log].  On a tick that starts with the log
    of day [d0] open: when its temperature check returns and the date is
    another day, the tick closes that log and calls [open] on the log of the
    new day, and when that [open] returns it runs the sweep that deletes
    files older than 14 days; when the check returns and the date is still
    [d0], it closes, opens and sweeps nothing; when the check raises, the
    tick ends there and closes, opens and sweeps nothing either, whatever
    the date. *)
Theorem C9_daily_rotation (t : Tick) (st : State) (d0 : Date) :
  valid_date d0 = true ->
  valid_date (today t) = true ->
  logName st = dated_logName d0 ->
  fileLog st = mkFile (dated_logName d0) false ->
  (exists y3 y2 y1 y0 m1 m0 a1 a0 : Z,
     Forall (fun k => 0 <= k <= 9)%Z [y3; y2; y1; y0; m1; m0; a1; a0] /\
     (year (today t) = 1000 * y3 + 100 * y2 + 10 * y1 + y0)%Z /\
     (month (today t) = 10 * m1 + m0)%Z /\
     (day (today t) = 10 * a1 + a0)%Z /\
     dated_logName (today t) =
       ("/home/pi/run-fan/logs/" ++ "run-fan" ++ "-" ++
        String (ascii_of_N (Z.to_N (48 + y3))) (String (ascii_of_N (Z.to_N (48 + y2)))
        (String (ascii_of_N (Z.to_N (48 + y1))) (String (ascii_of_N (Z.to_N (48 + y0)))
        (String "."
        (String (ascii_of_N (Z.to_N (48 + m1))) (String (ascii_of_N (Z.to_N (48 + m0)))
        (String "."
        (String (ascii_of_N (Z.to_N (48 + a1))) (String (ascii_of_N (Z.to_N (48 + a0)))
        ".log"))))))))))%string) /\
  (forall st1,
     checkTemperature t st = (Return tt, st1) ->
     iteration t st = (rotate_log t ;; sleep t) st1 /\
     (today t <> d0 ->
      rotate_log t st1 =
      (if open_ok t then Return tt else Raise IOError,
       mkState (dated_logName (today t))
         (if open_ok t then mkFile (dated_logName (today t)) false
          else mkFile (dated_logName d0) true)
         (myFan st1) (myTemp st1)
         (trace st1 ++
          FileClose (dated_logName d0) :: FileOpen (dated_logName (today t)) ::
          (if open_ok t
           then [System "find /home/pi/run-fan/logs/ -mtime +14 -delete"]
           else [])))) /\
     (today t = d0 -> rotate_log t st1 = (Return tt, st1))) /\
  (forall o st1,
     checkTemperature t st = (o, st1) ->
     o <> Return tt ->
     iteration t st = (o, st1) /\
     logName st1 = dated_logName d0 /\
     fileLog st1 = mkFile (dated_logName d0) false /\
     count is_rotation (trace st1) = count is_rotation (trace st)).
Proof.
  intros V0 V1 Hname Hfile. split; [|split].
  - apply dated_logName_pattern. exact V1.
  - intros st1 Hcheck.
    destruct (iteration_after_check t st st1 Hcheck) as (Hit & Hl & Hf).
    rewrite Hname in Hl. rewrite Hfile in Hf.
    split; [exact Hit|]. split.
    + intros Hday.
      rewrite rotate_log_new_name, Hf; [reflexivity | | rewrite Hf; reflexivity].
      rewrite Hl. intros Heq. apply Hday.
      apply DateFacts.dated_logName_inj; assumption.
    + intros Hday. apply rotate_log_same_name. rewrite Hl, Hday. reflexivity.
  - intros o st1 Hcheck Ho.
    destruct (iteration_check_fails t st st1 o Hcheck Ho) as (Hit & Hl & Hf & Hk).
    rewrite Hname in Hl. rewrite Hfile in Hf. auto.
Qed.

(** C9, at a sample: a tick on 2024.03.10 after one on 2024.03.09. *)
Lemma C9_daily_rotation_witness :
  fst (rotate_log (quiet (mkDate 2024 3 10) 50000)
         (snd (checkTemperature (quiet (mkDate 2024 3 10) 50000)
                 (snd (run_fan boot_ok [quiet day1 50000]))))) = Return tt.
Proof.
  assert (Hname : logName (snd (run_fan boot_ok [quiet day1 50000])) = dated_logName day1)
    by (vm_compute; reflexivity).
  assert (Hfile : fileLog (snd (run_fan boot_ok [quiet day1 50000])) =
                  mkFile (dated_logName day1) false)
    by (vm_compute; reflexivity).
  assert (Hcheck : checkTemperature (quiet (mkDate 2024 3 10) 50000)
                     (snd (run_fan boot_ok [quiet day1 50000])) =
                   (Return tt,
                    snd (checkTemperature (quiet (mkDate 2024 3 10) 50000)
                           (snd (run_fan boot_ok [quiet day1 50000])))))
    by (vm_compute; reflexivity).
  assert (Hday : today (quiet (mkDate 2024 3 10) 50000) <> day1)
    by (cbv; discriminate).
  destruct (C9_daily_rotation (quiet (mkDate 2024 3 10) 50000) _ day1
              eq_refl eq_refl Hname Hfile) as (_ & Hret & _).
  destruct (Hret _ Hcheck) as (_ & Hnew & _).
  rewrite (Hnew Hday). reflexivity.
Defined.

(** C9 as stated fails: on the first tick after midnight the sensor is
    unreadable, so the check of line 191 raises before the rotation is
    reached; the log of the day before stays the one in [logName], no dated
    log of the new day is opened, and the only sweep of the run is the one of
    its first tick. *)
Lemma C9_counterexample :
  fst (run_fan boot_ok [quiet day1 50000]) = Running /\
  logName (snd (run_fan boot_ok [quiet day1 50000])) = dated_logName day1 /\
  count is_sweep (trace (snd (run_fan boot_ok [quiet day1 50000]))) = 1 /\
  logName (snd (run_fan boot_ok [quiet day1 50000; unreadable (mkDate 2024 3 10)])) =
    dated_logName day1 /\
  count is_sweep
    (trace (snd (run_fan boot_ok [quiet day1 50000; unreadable (mkDate 2024 3 10)]))) = 1 /\
  trace (snd (run_fan boot_ok [quiet day1 50000; unreadable (mkDate 2024 3 10)])) =
    trace (snd (run_fan boot_ok [quiet day1 50000])) ++
    [Popen "cat /sys/class/thermal/thermal_zone0/temp";
     LogWrite (dated_logName day1) [Lit "ERROR: an unhandled exception occurred"];
     GpioCleanup;
     FileClose (dated_logName day1)].
Proof. repeat split; vm_compute; reflexivity. Qed.

(** C10, as the code has it -- the first tick rotates when its check
    returns.  No dated name equals the default name under which the log is
    opened at start-up.  So on the first tick of a run, when its temperature
    check returns, the default log is closed and [open] is called on the
    dated log, whatever the date, and the sweep follows when that [open]
    returns; when the check raises, the tick ends there: nothing is closed,
    opened or swept and [logName] is still the default name. *)
Theorem C10_first_tick_rotates (b : Boot) (t : Tick) :
  (forall d, dated_logName d <> default_logName) /\
  logName (booted b) = default_logName /\
  (forall st1,
     checkTemperature t (booted b) = (Return tt, st1) ->
     iteration t (booted b) = (rotate_log t ;; sleep t) st1 /\
     rotate_log t st1 =
     (if open_ok t then Return tt else Raise IOError,
      mkState (dated_logName (today t))
        (if open_ok t then mkFile (dated_logName (today t)) false
         else mkFile default_logName true)
        (myFan st1) (myTemp st1)
        (trace st1 ++
         FileClose default_logName :: FileOpen (dated_logName (today t)) ::
         (if open_ok t
          then [System "find /home/pi/run-fan/logs/ -mtime +14 -delete"]
          else [])))) /\
  (forall o st1,
     checkTemperature t (booted b) = (o, st1) ->
     o <> Return tt ->
     iteration t (booted b) = (o, st1) /\
     logName st1 = default_logName /\
     fileLog st1 = mkFile default_logName false /\
     count is_rotation (trace st1) = count is_rotation (trace (booted b))).
Proof.
  destruct (booted_state b) as (_ & _ & _ & Hl0 & Hf0 & _).
  split; [exact DateFacts.dated_logName_not_default|].
  split; [exact Hl0|]. split.
  - intros st1 Hcheck.
    destruct (iteration_after_check t (booted b) st1 Hcheck) as (Hit & Hl & Hf).
    rewrite Hl0 in Hl. rewrite Hf0 in Hf.
    split; [exact Hit|].
    rewrite rotate_log_new_name, Hf.
    + reflexivity.
    + rewrite Hl. apply DateFacts.dated_logName_not_default.
    + rewrite Hf. reflexivity.
  - intros o st1 Hcheck Ho.
    destruct (iteration_check_fails t (booted b) st1 o Hcheck Ho) as (Hit & Hl & Hf & Hk).
    rewrite Hl0 in Hl. rewrite Hf0 in Hf. auto.
Qed.

(** C10, at a sample: the first tick of a run on 2024.03.09. *)
Lemma C10_first_tick_rotates_witness :
  logName (snd (rotate_log (quiet day1 50000)
                  (snd (checkTemperature (quiet day1 50000) (booted boot_ok))))) =
  dated_logName day1.
Proof.
  assert (Hcheck : checkTemperature (quiet day1 50000) (booted boot_ok) =
                   (Return tt, snd (checkTemperature (quiet day1 50000) (booted boot_ok))))
    by (vm_compute; reflexivity).
  destruct (C10_first_tick_rotates boot_ok (quiet day1 50000)) as (_ & _ & Hret & _).
  destruct (Hret _ Hcheck) as (_ & H).
  rewrite H. reflexivity.
Defined.

(** C10 as stated fails: with an unreadable sensor on the first tick the
    check of line 191 raises before the rotation is reached; the process
    exits with [logName] still the default name, the only [FileOpen] of the
    run is the one of the default log, and no sweep is run. *)
Lemma C10_counterexample :
  fst (run_fan boot_ok [unreadable day1]) = Exit 0 /\
  logName (snd (run_fan boot_ok [unreadable day1])) = default_logName /\
  count is_sweep (trace (snd (run_fan boot_ok [unreadable day1]))) = 0 /\
  trace (snd (run_fan boot_ok [unreadable day1])) =
    trace (booted boot_ok) ++
    [Popen "cat /sys/class/thermal/thermal_zone0/temp";
     LogWrite default_logName [Lit "ERROR: an unhandled exception occurred"];
     GpioCleanup;
     FileClose default_logName].
Proof. repeat split; vm_compute; reflexivity. Qed.

(** * Further properties of the code *)

(** ** Stamps sort as the calendar does *)

Module StampFacts.
Local Open Scope Z_scope.

Lemma digit_compare (a b : Z) :
  Ascii.compare (digit a) (digit b) = (a mod 10 ?= b mod 10).
Proof.
  unfold Ascii.compare. rewrite !DateFacts.digit_code.
  pose proof (Z.mod_pos_bound a 10 ltac:(lia)).
  pose proof (Z.mod_pos_bound b 10 ltac:(lia)).
  rewrite Z2N.inj_compare by lia.
  apply Z.add_compare_mono_l.
Qed.

Lemma same_char (c : ascii) (r1 r2 : string) :
  String.compare (String c r1) (String c r2) = String.compare r1 r2.
Proof.
  cbn [String.compare]. unfold Ascii.compare. rewrite N.compare_refl. reflexivity.
Qed.

Ltac decide_digits :=
  repeat match goal with
    | |- context [(?x ?= ?y)%Z] =>
        destruct (Z.compare_spec x y)
    end;
  try reflexivity; exfalso; Z.to_euclidean_division_equations; lia.

Lemma field2 (a b : Z) (r1 r2 : string) :
  0 <= a <= 99 -> 0 <= b <= 99 ->
  String.compare (String (digit (a / 10)) (String (digit a) r1))
                 (String (digit (b / 10)) (String (digit b) r2)) =
  match a ?= b with
  | Eq => String.compare r1 r2
  | c => c
  end.
Proof.
  intros Ha Hb. cbn [String.compare]. rewrite !digit_compare. decide_digits.
Qed.

Lemma field4 (a b : Z) (r1 r2 : string) :
  0 <= a <= 9999 -> 0 <= b <= 9999 ->
  String.compare
    (String (digit (a / 1000)) (String (digit (a / 100))
      (String (digit (a / 10)) (String (digit a) r1))))
    (String (digit (b / 1000)) (String (digit (b / 100))
      (String (digit (b / 10)) (String (digit b) r2)))) =
  match a ?= b with
  | Eq => String.compare r1 r2
  | c => c
  end.
Proof.
  intros Ha Hb. cbn [String.compare]. rewrite !digit_compare. decide_digits.
Qed.

End StampFacts.

(** X1 -- dated log names sort as the calendar does.  For dates the clock
    can report, comparing two dated log names as strings gives the calendar
    order of their dates; in particular different days never share a log
    file. *)
Theorem X1_log_names_sort_by_date (d0 d1 : Date) :
  valid_date d0 = true ->
  valid_date d1 = true ->
  String.compare (dated_logName d0) (dated_logName d1) = date_compare d0 d1 /\
  (dated_logName d0 = dated_logName d1 <-> d0 = d1).
Proof.
  intros V0 V1.
  assert (Hcmp : String.compare (dated_logName d0) (dated_logName d1) =
                 date_compare d0 d1).
  { apply DateFacts.valid_date_bounds in V0, V1.
    unfold dated_logName, dateStamp, date_compare. cbn [append].
    rewrite !StampFacts.same_char.
    rewrite StampFacts.field4 by lia. rewrite StampFacts.same_char.
    rewrite StampFacts.field2 by lia. rewrite StampFacts.same_char.
    rewrite StampFacts.field2 by lia.
    destruct (year d0 ?= year d1)%Z, (month d0 ?= month d1)%Z,
      (day d0 ?= day d1)%Z; reflexivity. }
  split; [exact Hcmp|]. split.
  - intros Heq. rewrite Heq in Hcmp.
    destruct d0 as [y0 m0 a0], d1 as [y1 m1 a1].
    unfold date_compare in Hcmp. cbn [year month day] in Hcmp.
    assert (Hrefl : forall s, String.compare s s = Eq).
    { induction s as [|c s IH]; [reflexivity|]. rewrite StampFacts.same_char. exact IH. }
    rewrite Hrefl in Hcmp.
    destruct (Z.compare_spec y0 y1); try discriminate.
    destruct (Z.compare_spec m0 m1); try discriminate.
    destruct (Z.compare_spec a0 a1); try discriminate.
    congruence.
  - intros ->. reflexivity.
Qed.

Lemma X1_log_names_sort_by_date_witness :
  String.compare (dated_logName (mkDate 2024 12 31)) (dated_logName (mkDate 2025 1 1)) = Lt.
Proof.
  rewrite (proj1 (X1_log_names_sort_by_date (mkDate 2024 12 31) (mkDate 2025 1 1)
                    eq_refl eq_refl)).
  reflexivity.
Defined.

(** X2 -- log lines sort as the clock does.  The stamp [timeStamp] puts in
    front of every message is 22 characters wide, and two lines stamped at
    different valid times compare as strings the way their times compare,
    whatever the messages are. *)
Theorem X2_log_lines_sort_by_time (c0 c1 : Clock) (s0 s1 : string) :
  valid_clock c0 = true ->
  valid_clock c1 = true ->
  clock_compare c0 c1 <> Eq ->
  String.length (timeStamp c0) = 22 /\
  String.compare (log_line c0 s0) (log_line c1 s1) = clock_compare c0 c1.
Proof.
  intros V0 V1 Hne. split; [reflexivity|].
  unfold valid_clock in V0, V1.
  rewrite !andb_true_iff, !Z.leb_le in V0, V1.
  destruct V0 as ((((((Vd0 & ?) & ?) & ?) & ?) & ?) & ?).
  destruct V1 as ((((((Vd1 & ?) & ?) & ?) & ?) & ?) & ?).
  apply DateFacts.valid_date_bounds in Vd0, Vd1.
  revert Hne. unfold log_line, timeStamp, clock_compare, date_compare. cbn [append].
  rewrite StampFacts.field4 by lia. rewrite StampFacts.same_char.
  rewrite StampFacts.field2 by lia. rewrite StampFacts.same_char.
  rewrite StampFacts.field2 by lia. rewrite StampFacts.same_char.
  rewrite StampFacts.field2 by lia. rewrite StampFacts.same_char.
  rewrite StampFacts.field2 by lia. rewrite StampFacts.same_char.
  rewrite StampFacts.field2 by lia. rewrite !StampFacts.same_char.
  destruct (year (date c0) ?= year (date c1))%Z; try (intros _; reflexivity).
  destruct (month (date c0) ?= month (date c1))%Z; try (intros _; reflexivity).
  destruct (day (date c0) ?= day (date c1))%Z; try (intros _; reflexivity).
  destruct (hour c0 ?= hour c1)%Z; try (intros _; reflexivity).
  destruct (minute c0 ?= minute c1)%Z; try (intros _; reflexivity).
  destruct (second c0 ?= second c1)%Z; try (intros _; reflexivity).
  intros Hne. contradiction Hne. reflexivity.
Qed.

Lemma X2_log_lines_sort_by_time_witness :
  String.compare (log_line (mkClock (mkDate 2024 3 9) 23 59 59) "Turning fan off 61.0")
                 (log_line (mkClock (mkDate 2024 3 10) 0 0 0) "Starting: run-fan") = Lt.
Proof.
  rewrite (proj2 (X2_log_lines_sort_by_time
                    (mkClock (mkDate 2024 3 9) 23 59 59) (mkClock (mkDate 2024 3 10) 0 0 0)
                    "Turning fan off 61.0" "Starting: run-fan"
                    eq_refl eq_refl ltac:(discriminate))).
  reflexivity.
Defined.

(** ** The events of a tick and of the handlers *)

Lemma checkTemperature_result (t : Tick) (st : State) :
  fst (checkTemperature t st) = check_outcome t st /\
  trace (snd (checkTemperature t st)) = trace st ++ check_events t st.
Proof.
  unfold check_outcome, check_events, decision, sample. unfold_m.
  destruct (sensor t) as [res|]; proj; [|split; reflexivity].
  branch; proj; rewrite <- ?app_assoc; split; reflexivity.
Qed.

Lemma sleep_outcome (t : Tick) (st : State) :
  fst (sleep t st) =
  match sleep_signal t with
  | None => Return tt
  | Some SIGINT => Raise KeyboardInterrupt
  | Some SIGTERM => Killed SIGTERM
  end.
Proof. unfold_m. destruct (sleep_signal t) as [[]|]; reflexivity. Qed.

Lemma iteration_result (t : Tick) (st : State) :
  ready st ->
  fst (iteration t st) = tick_outcome t st /\
  trace (snd (iteration t st)) = trace st ++ tick_events t st.
Proof.
  intros Hr. unfold tick_outcome.
  destruct (checkTemperature_result t st) as [Hout Hev].
  destruct (checkTemperature_spec t st) as (_ & _ & _ & _ & Hf & Hl & _).
  unfold tick_events, rotates. rewrite <- Hout. unfold iteration, bind.
  destruct (checkTemperature t st) as [[[]|e|s|] st1]; cbn [fst snd returns] in *;
    rewrite ?app_nil_r; try (split; [reflexivity | exact Hev]).
  assert (Hr1 : ready st1) by (unfold ready in *; rewrite Hf, Hl; exact Hr).
  destruct Hr1 as [Hopen Hname].
  destruct (String.eqb_spec (dated_logName (today t)) (logName st)) as [Heq|Hne];
    cbn [negb].
  - rewrite rotate_log_same_name by congruence. cbn [andb].
    destruct (sleep_spec t st1) as (Htr & _).
    rewrite Htr, Hev, <- app_assoc. split; [apply sleep_outcome | reflexivity].
  - rewrite rotate_log_new_name by congruence.
    destruct (open_ok t); cbn [fst snd andb negb].
    + match goal with |- _ /\ trace (snd (sleep t ?s)) = _ =>
        destruct (sleep_spec t s) as (Htr & _); rewrite Htr end.
      cbn [trace]. rewrite Hev, Hf, <- !app_assoc.
      split; [apply sleep_outcome | reflexivity].
    + cbn [trace]. rewrite Hev, Hf, <- !app_assoc. split; reflexivity.
Qed.

Lemma handler_result (e : exn) (st : State) :
  trace (snd (handler e st)) = trace st ++ handler_events e st /\
  fst (handler e st) =
    (if closed (fileLog st) then Raise ValueError else Return tt) /\
  myFan (snd (handler e st)) = myFan st /\
  myTemp (snd (handler e st)) = myTemp st /\
  closed (fileLog (snd (handler e st))) = true.
Proof.
  unfold handler_events. unfold_m.
  destruct (closed (fileLog st)) eqn:Hc;
    destruct e; repeat (proj; rewrite ?Hc);
    rewrite <- ?app_assoc, ?app_nil_r; repeat split; auto.
Qed.

(** The end of a run, read off the end of its loop. *)
Lemma run_fan_end (b : Boot) (ticks : list Tick) :
  run_fan b ticks =
  match loop ticks (booted b) with
  | (Raise e, st) =>
      (if closed (fileLog st) then Exit 1 else Exit 0, snd (handler e st))
  | (Killed s, st) => (Signaled s, st)
  | (_, st) => (Running, st)
  end.
Proof.
  unfold run_fan. rewrite main_enters_loop. unfold try_except.
  destruct (loop ticks (booted b)) as [[[]|e|s|] st] eqn:E; try reflexivity.
  - exfalso. eapply loop_never_returns. exact E.
  - destruct (handler_result e st) as (_ & Hout & _).
    destruct (handler e st) as [o st']. cbn [fst snd] in *. subst o.
    destruct (closed (fileLog st)); reflexivity.
Qed.

(** ** Checking the trace of a whole run event by event *)

Lemma scan_app {S : Type} (step : S -> event -> option S) (s : S)
    (a b : list event) :
  scan step s (a ++ b) =
  match scan step s a with
  | Some s' => scan step s' b
  | None => None
  end.
Proof.
  revert s. induction a as [|e a IH]; intros s; cbn [scan app]; [reflexivity|].
  destruct (step s e); [apply IH | reflexivity].
Qed.

Section Scanning.

Context {S : Type}.
Variable step : S -> event -> option S.

(** [Good s st]: what the checker state says at the top of an iteration;
    [Fin s st]: what it says where the loop was left; [Done s x]: what it
    says after the handlers, [x] being the exit status. *)
Variable Good : S -> State -> Prop.
Variable Fin : S -> State -> Prop.
Variable Done : S -> status -> Prop.

Hypothesis tick_ok : forall t st s,
  ready st -> Good s st ->
  exists s',
    scan step s (tick_events t st) = Some s' /\
    match tick_outcome t st with
    | Return _ => Good s' (snd (iteration t st))
    | _ => Fin s' (snd (iteration t st))
    end.

Hypothesis handler_ok : forall e st s,
  Fin s st ->
  exists s',
    scan step s (handler_events e st) = Some s' /\
    Done s' (if closed (fileLog st) then Exit 1 else Exit 0).

Lemma loop_scan (ticks : list Tick) (st : State) (s0 s : S) :
  scan step s0 (trace st) = Some s ->
  ready st -> Good s st ->
  exists s',
    scan step s0 (trace (snd (loop ticks st))) = Some s' /\
    match fst (loop ticks st) with
    | Pending => Good s' (snd (loop ticks st))
    | _ => Fin s' (snd (loop ticks st))
    end.
Proof.
  revert st s. induction ticks as [|t rest IH]; intros st s Hscan Hr Hgood;
    cbn [loop].
  - exists s. split; assumption.
  - destruct (tick_ok t st s Hr Hgood) as (s1 & Hs1 & Hnext).
    destruct (iteration_result t st Hr) as [Hout Hev].
    destruct (iteration_spec t st) as (_ & _ & _ & _ & _ & _ & _ & _ & Hready).
    rewrite <- Hout in Hnext.
    assert (Hscan1 : scan step s0 (trace (snd (iteration t st))) = Some s1).
    { rewrite Hev, scan_app, Hscan. exact Hs1. }
    unfold bind.
    destruct (iteration t st) as [[[]|e|sg|] st1] eqn:E; cbn [fst snd] in *.
    + apply (IH st1 s1); auto.
    + exists s1. split; assumption.
    + exists s1. split; assumption.
    + exfalso. eapply iteration_finishes. exact E.
Qed.

Lemma run_scan (b : Boot) (ticks : list Tick) (s0 s : S) :
  scan step s0 (trace (booted b)) = Some s ->
  Good s (booted b) ->
  exists s',
    scan step s0 (trace (snd (run_fan b ticks))) = Some s' /\
    match fst (run_fan b ticks) with
    | Running => Good s' (snd (run_fan b ticks))
    | Signaled _ => Fin s' (snd (run_fan b ticks))
    | Exit c => Done s' (Exit c)
    end.
Proof.
  intros Hscan Hgood.
  destruct (loop_scan ticks (booted b) s0 s Hscan (booted_ready b) Hgood)
    as (s1 & Hs1 & Hend).
  rewrite run_fan_end.
  destruct (loop ticks (booted b)) as [[[]|e|sg|] st] eqn:E; cbn [fst snd] in *.
  - exfalso. eapply loop_never_returns. exact E.
  - destruct (handler_ok e st s1 Hend) as (s2 & Hs2 & Hdone).
    destruct (handler_result e st) as (Htr & _).
    exists s2. rewrite Htr, scan_app, Hs1. split; [exact Hs2|].
    destruct (closed (fileLog st)); exact Hdone.
  - exists s1. split; assumption.
  - exists s1. split; assumption.
Qed.

End Scanning.

(** ** What every run keeps to *)

Ltac tick_cases t st :=
  unfold tick_events, tick_outcome, check_events, check_outcome, returns;
  destruct (sample t) as [temp|]; [destruct (decision t st) as [level|] eqn:Hdec|];
  repeat match goal with
    | H : closed (fileLog st) = false |- _ => rewrite H
    end;
  destruct (gpio_output_ok t); destruct (rotates t st) eqn:Hrot;
  destruct (open_ok t) eqn:Hopen_ok;
  destruct (sleep_signal t) as [[]|]; cbn [app andb negb].

(** X3 -- the pace of the loop.  In every run, whatever happens, the sensor
    is read at most once and the pin is written at most once between two
    sleeps, a pin write only follows a read, and every sleep lasts 30
    seconds. *)
Theorem X3_one_read_one_write_per_sleep (b : Boot) (ticks : list Tick) :
  exists s,
    scan pace_step (false, false) (trace (snd (run_fan b ticks))) = Some s.
Proof.
  destruct (run_scan pace_step
              (fun s _ => s = (false, false)) (fun _ _ => True) (fun _ _ => True))
    with (b := b) (ticks := ticks) (s0 := (false, false)) (s := (false, false))
    as (s' & Hs' & _).
  - intros t st s [Hopen _] ->.
    tick_cases t st; eexists; (split; [reflexivity | auto]).
  - intros e st s _. unfold handler_events.
    destruct (closed (fileLog st)); eexists; (split; [reflexivity | exact I]).
  - destruct b as [[] f]; reflexivity.
  - reflexivity.
  - exists s'. exact Hs'.
Qed.

(** X4 -- the audit trail.  In every run, every write to the GPIO goes to
    pin 25 and is made right after the log line ["Turning fan on "] or
    ["Turning fan off "] of its level has been written: no pin write goes
    unlogged, even when the write itself fails. *)
Theorem X4_every_pin_write_is_logged_first (b : Boot) (ticks : list Tick) :
  exists s,
    scan audit_step None (trace (snd (run_fan b ticks))) = Some s.
Proof.
  destruct (run_scan audit_step
              (fun _ _ => True) (fun _ _ => True) (fun _ _ => True))
    with (b := b) (ticks := ticks) (s0 := @None event)
         (s := last (map Some (trace (booted b))) None)
    as (s' & Hs' & _).
  - intros t st s [Hopen _] _.
    tick_cases t st; try destruct level; eexists; (split; [reflexivity | auto]).
  - intros e st s _. unfold handler_events.
    destruct (closed (fileLog st)); eexists; (split; [reflexivity | exact I]).
  - destruct b as [[] f]; reflexivity.
  - exact I.
  - exists s'. exact Hs'.
Qed.

Lemma iteration_files (t : Tick) (st : State) :
  ready st ->
  fileLog (snd (iteration t st)) =
    (if returns (check_outcome t st) && rotates t st then
       if open_ok t then mkFile (dated_logName (today t)) false
       else mkFile (name (fileLog st)) true
     else fileLog st) /\
  logName (snd (iteration t st)) =
    (if returns (check_outcome t st) && rotates t st then dated_logName (today t)
     else logName st).
Proof.
  intros Hr.
  destruct (checkTemperature_result t st) as [Hout _].
  destruct (checkTemperature_spec t st) as (_ & _ & _ & _ & Hf & Hl & _).
  unfold rotates. rewrite <- Hout. unfold iteration, bind.
  destruct (checkTemperature t st) as [[[]|e|s|] st1]; cbn [fst snd returns andb] in *;
    try (split; assumption).
  assert (Hr1 : ready st1) by (unfold ready in *; rewrite Hf, Hl; exact Hr).
  destruct Hr1 as [Hopen Hname].
  destruct (String.eqb_spec (dated_logName (today t)) (logName st)) as [Heq|Hne];
    cbn [negb].
  - rewrite rotate_log_same_name by congruence.
    destruct (sleep_spec t st1) as (_ & _ & _ & Hf3 & Hl3).
    rewrite Hf3, Hl3. split; assumption.
  - rewrite rotate_log_new_name by congruence.
    destruct (open_ok t); cbn [fst snd].
    + match goal with |- fileLog (snd (sleep t ?s)) = _ /\ _ =>
        destruct (sleep_spec t s) as (_ & _ & _ & Hf3 & Hl3); rewrite Hf3, Hl3 end.
      split; reflexivity.
    + cbn [fileLog logName]. rewrite Hf. split; reflexivity.
Qed.

(** X5 -- one log sink at a time.  In every run a log file is opened only
    after the one before was closed, and every line is written to, and every
    close is made on, the file that is open at that moment.  While the loop
    runs the open file is the one named by [logName]; after a handler has
    run to its end (status 0) no file is left open. *)
Theorem X5_one_open_log_at_a_time (b : Boot) (ticks : list Tick) :
  exists cur,
    scan sink_step None (trace (snd (run_fan b ticks))) = Some cur /\
    match fst (run_fan b ticks) with
    | Running => cur = Some (logName (snd (run_fan b ticks)))
    | Exit 0 => cur = None
    | _ => True
    end.
Proof.
  destruct (run_scan sink_step
              (fun s st => ready st /\ s = Some (name (fileLog st)))
              (fun s st => closed (fileLog st) = false -> s = Some (name (fileLog st)))
              (fun s x => x = Exit 0 -> s = None))
    with (b := b) (ticks := ticks) (s0 := @None string)
         (s := Some default_logName)
    as (cur & Hcur & Hend).
  - intros t st s Hr [_ ->].
    destruct (iteration_files t st Hr) as [Hfile _].
    destruct (iteration_result t st Hr) as [Hout _].
    destruct (iteration_spec t st) as (_ & _ & _ & _ & _ & _ & _ & _ & Hready).
    rewrite Hout in Hready. specialize (Hready Hr).
    revert Hfile Hready. destruct Hr as [Hopen Hname].
    tick_cases t st; cbn [scan sink_step]; rewrite ?String.eqb_refl;
      cbn [scan sink_step]; rewrite ?String.eqb_refl;
      intros Hfile Hready; eexists; (split; [reflexivity|]);
      first [ split; [auto | rewrite Hfile; reflexivity]
            | intros Hc; rewrite Hfile in Hc |- *; cbn [closed name] in *;
              first [discriminate | reflexivity] ].
  - intros e st s Hfin. unfold handler_events.
    destruct (closed (fileLog st)) eqn:Hc.
    + exists s. split; [reflexivity | discriminate].
    + rewrite (Hfin eq_refl). cbn [scan sink_step]. rewrite String.eqb_refl.
      cbn [scan sink_step]. rewrite String.eqb_refl.
      exists None. split; reflexivity.
  - destruct b as [[] f]; reflexivity.
  - split; [apply booted_ready|]. destruct (booted_state b) as (_ & _ & _ & _ & -> & _).
    reflexivity.
  - exists cur. split; [exact Hcur|].
    destruct (fst (run_fan b ticks)) as [c|sg|].
    + destruct c as [|p|p]; auto.
    + exact I.
    + destruct Hend as [[_ Hname] ->]. rewrite Hname. reflexivity.
Qed.

Lemma alt_scan_alternates (tr : list event) (next s : bool) :
  scan alt_step next tr = Some s -> alternates next (commands tr) = true.
Proof.
  revert next. induction tr as [|e tr IH]; intros next; cbn [scan commands].
  - reflexivity.
  - destruct e; cbn [alt_step]; try apply IH.
    cbn [alternates]. destruct (Bool.eqb level next); [|discriminate].
    intros H. rewrite (IH _ H). reflexivity.
Qed.

(** X6 -- the pin writes alternate.  In every run, whatever happens, the
    levels written to the pin alternate and the first one is high: the fan is
    never commanded on twice, or off twice, in a row. *)
Theorem X6_pin_writes_alternate (b : Boot) (ticks : list Tick) :
  alternates true (commands (trace (snd (run_fan b ticks)))) = true.
Proof.
  destruct (run_scan alt_step
              (fun s st => s = fanOff (myFan st)) (fun _ _ => True) (fun _ _ => True))
    with (b := b) (ticks := ticks) (s0 := true) (s := true)
    as (s' & Hs' & _).
  - intros t st s Hr ->.
    destruct (iteration_result t st Hr) as [Hout _].
    destruct (iteration_spec t st) as (n & _ & _ & _ & _ & _ & Hfan & _).
    rewrite Hout in Hfan. revert Hfan. destruct Hr as [Hopen _].
    tick_cases t st; intros Hfan;
      try (apply decision_level in Hdec; subst level);
      cbn [scan alt_step]; rewrite ?Bool.eqb_reflx; cbn [scan alt_step];
      eexists; (split; [reflexivity|]); auto;
      rewrite Hfan by reflexivity; reflexivity.
  - intros e st s _. unfold handler_events.
    destruct (closed (fileLog st)); eexists; (split; [reflexivity | exact I]).
  - destruct b as [[] f]; reflexivity.
  - destruct (booted_state b) as (-> & _). reflexivity.
  - eapply alt_scan_alternates. exact Hs'.
Qed.

(** ** The controller as a function of the samples *)

Lemma decision_hysteresis (t : Tick) (st : State) (temp : float) :
  sample t = Some temp ->
  let off := fanOff (myFan st) in
  let off' := hysteresis (startTemperature (myTemp st)) (stopTemperature (myTemp st))
                off temp in
  match decision t st with
  | Some level => negb level
  | None => off
  end = off' /\
  match decision t st with
  | Some level => [level]
  | None => []
  end = (if Bool.eqb off off' then [] else [off]).
Proof.
  intros Hs. unfold decision, hysteresis. rewrite Hs. cbv zeta.
  destruct (PyFloat.gt temp (startTemperature (myTemp st))),
    (PyFloat.le temp (stopTemperature (myTemp st))), (fanOff (myFan st));
    split; reflexivity.
Qed.

Lemma loop_hysteresis (ticks : list Tick) (st st' : State) :
  loop ticks st = (Pending, st') ->
  ready st ->
  let start := startTemperature (myTemp st) in
  let stop := stopTemperature (myTemp st) in
  length (samples_of ticks) = length ticks /\
  fanOff (myFan st') =
    fold_left (hysteresis start stop) (samples_of ticks) (fanOff (myFan st)) /\
  commands (trace st') =
    commands (trace st) ++ changes start stop (fanOff (myFan st)) (samples_of ticks).
Proof.
  cbv zeta. revert st. induction ticks as [|t rest IH]; intros st Hloop Hr.
  - cbn in Hloop. inversion Hloop; subst. cbn. rewrite app_nil_r. auto.
  - cbn [loop] in Hloop. unfold bind in Hloop.
    destruct (iteration_spec t st) as (n & Htr & Hs & Hp & Hc & _ & Hfan & _ & Hready).
    destruct (iteration_result t st Hr) as [Hout _].
    destruct (iteration t st) as [[[]|e|sg|] st1] eqn:E; try discriminate;
      cbn [fst snd] in *.
    + destruct (IH st1 Hloop (Hready Hr eq_refl)) as (Hlen & Hoff & Hcmd).
      unfold tick_outcome, check_outcome in Hout.
      destruct (sample t) as [temp|] eqn:Hsample; [|discriminate].
      destruct (decision_hysteresis t st temp Hsample) as [Hnext Hchg].
      cbv zeta in Hnext, Hchg.
      unfold samples_of in *. cbn [flat_map]. rewrite Hsample.
      cbn [app length fold_left changes]. rewrite Hlen.
      rewrite Hs, Hp, (Hfan eq_refl), Hnext in *.
      split; [reflexivity|]. split; [exact Hoff|].
      rewrite Hcmd, Htr, commands_app, Hc, <- app_assoc. f_equal.
      destruct Hr as [Hopen _]. rewrite Hopen.
      f_equal. rewrite <- Hchg. destruct (decision t st); reflexivity.
    + exfalso. eapply iteration_finishes. exact E.
Qed.

(** X7 -- the controller is the hysteresis rule folded over the samples.
    After any number of completed ticks the fan record is what the rule
    [hysteresis 67 62] makes of the samples read so far, starting from off,
    and the pin writes issued are exactly the changes of that record; dates,
    log rotation and sleeps have no influence on either. *)
Theorem X7_fan_follows_hysteresis (b : Boot) (ticks : list Tick) (st : State) :
  run_fan b ticks = (Running, st) ->
  length (samples_of ticks) = length ticks /\
  fanOff (myFan st) = fold_left (hysteresis 67 62) (samples_of ticks) true /\
  commands (trace st) = changes 67 62 true (samples_of ticks).
Proof.
  intros H. apply run_fan_running in H.
  destruct (loop_hysteresis ticks (booted b) st H (booted_ready b))
    as (Hlen & Hoff & Hcmd).
  destruct (booted_state b) as (Hfan & Hs & Hp & _ & _ & Hc & _).
  rewrite Hs, Hp, Hfan in *. rewrite Hc in Hcmd.
  repeat split; assumption.
Qed.

Lemma X7_fan_follows_hysteresis_witness :
  commands (trace (snd (run_fan boot_ok scenario))) = [true; false; true].
Proof.
  assert (H : run_fan boot_ok scenario = (Running, snd (run_fan boot_ok scenario)))
    by (vm_compute; reflexivity).
  destruct (X7_fan_follows_hysteresis boot_ok scenario _ H) as (_ & _ & Hcmd).
  rewrite Hcmd. vm_compute. reflexivity.
Defined.

(** ** The whole run: thresholds and endings *)

Lemma loop_thresholds (ticks : list Tick) (st : State) :
  startTemperature (myTemp (snd (loop ticks st))) = startTemperature (myTemp st) /\
  stopTemperature (myTemp (snd (loop ticks st))) = stopTemperature (myTemp st).
Proof.
  revert st. induction ticks as [|t rest IH]; intros st; cbn [loop].
  - split; reflexivity.
  - destruct (iteration_spec t st) as (n & _ & Hs & Hp & _).
    unfold bind. destruct (iteration t st) as [[[]|e|sg|] st1]; cbn [fst snd] in *;
      try (split; assumption).
    destruct (IH st1) as [Hs1 Hp1]. split; congruence.
Qed.

(** X8 -- the thresholds never move.  However a run goes and however it
    ends, the start threshold is 67.0 and the stop threshold is 62.0 in its
    last state: they are set by [Temperature.__init__], the second as the
    first minus 5.0, and nothing changes them afterwards. *)
Theorem X8_thresholds_never_change (b : Boot) (ticks : list Tick) :
  startTemperature (myTemp (snd (run_fan b ticks))) = 67%float /\
  stopTemperature (myTemp (snd (run_fan b ticks))) = 62%float /\
  (67 - 5 = 62)%float.
Proof.
  destruct (loop_thresholds ticks (booted b)) as [Hs Hp].
  destruct (booted_state b) as (_ & Hs0 & Hp0 & _).
  rewrite Hs0 in Hs. rewrite Hp0 in Hp.
  rewrite run_fan_end.
  destruct (loop ticks (booted b)) as [[[]|e|sg|] st]; cbn [fst snd] in *;
    try (repeat split; assumption).
  destruct (handler_result e st) as (_ & _ & _ & HT & _).
  rewrite HT. repeat split; assumption.
Qed.

Lemma loop_killed (ticks : list Tick) (st st' : State) (sg : signal) :
  ready st -> loop ticks st = (Killed sg, st') -> sg = SIGTERM.
Proof.
  revert st. induction ticks as [|t rest IH]; intros st Hr; cbn [loop].
  - discriminate.
  - destruct (iteration_result t st Hr) as [Hout _].
    destruct (iteration_spec t st) as (n & _ & _ & _ & _ & _ & _ & _ & Hready).
    unfold bind. destruct (iteration t st) as [[[]|e|sg1|] st1] eqn:E;
      cbn [fst snd] in *; try discriminate.
    + apply IH. apply Hready; auto.
    + intros H. inversion H; subst. revert Hout.
      unfold tick_outcome.
      destruct (check_outcome t st) eqn:Hc; try discriminate.
      * destruct (rotates t st && negb (open_ok t)); [discriminate|].
        destruct (sleep_signal t) as [[]|]; congruence.
      * revert Hc. unfold check_outcome.
        destruct (sample t), (decision t st), (closed (fileLog st)),
          (gpio_output_ok t); discriminate.
Qed.

(** X9 -- how a run can end and when the GPIO is released.  A run is still
    going, or was killed by SIGTERM, or has exited with status 0 or 1, and
    nothing else.  [GPIO.cleanup] is called exactly once in the runs that
    exit with status 0 and never in any other run: a process killed by
    SIGTERM, or ended by a failed [open] of the log, leaves the pin as it
    is.  Whenever the process has exited, the log is closed. *)
Theorem X9_endings_and_release (b : Boot) (ticks : list Tick) :
  (fst (run_fan b ticks) = Running \/
   fst (run_fan b ticks) = Signaled SIGTERM \/
   fst (run_fan b ticks) = Exit 0 \/
   fst (run_fan b ticks) = Exit 1) /\
  count is_cleanup (trace (snd (run_fan b ticks))) =
    (if exited_cleanly (fst (run_fan b ticks)) then 1 else 0) /\
  (forall c, fst (run_fan b ticks) = Exit c ->
             closed (fileLog (snd (run_fan b ticks))) = true).
Proof.
  destruct (loop_spec ticks (booted b)) as (n & Htr & Hk & _).
  destruct (booted_state b) as (_ & _ & _ & _ & _ & _ & Hk0).
  assert (Htotal : count is_cleanup (trace (snd (loop ticks (booted b)))) = 0).
  { rewrite Htr, count_app, Hk, Hk0. reflexivity. }
  rewrite run_fan_end.
  destruct (loop ticks (booted b)) as [[[]|e|sg|] st] eqn:E; cbn [fst snd] in *.
  - exfalso. eapply loop_never_returns. exact E.
  - destruct (handler_result e st) as (Hev & _ & _ & _ & Hclosed).
    rewrite Hev, count_app, Htotal. unfold handler_events.
    destruct (closed (fileLog st)); cbn; auto 6.
  - rewrite (loop_killed _ _ _ _ (booted_ready b) E).
    repeat split; auto. discriminate.
  - repeat split; auto. discriminate.
Qed.

(** ** Failed pin writes, the open log and the days of a run *)

Lemma running_prefix (b : Boot) (pre : list Tick) (t : Tick) (post : list Tick)
    (st : State) :
  run_fan b pre = (Running, st) ->
  ready st /\
  loop (pre ++ t :: post) (booted b) =
    (let (o, st1) := iteration t st in
     match o with
     | Return _ => loop post st1
     | _ => (o, st1)
     end).
Proof.
  intros H. destruct (run_fan_running_state b pre st H) as (Hr & _).
  apply run_fan_running in H. split; [exact Hr|].
  rewrite loop_app, H. cbn [loop]. unfold bind.
  destruct (iteration t st) as [[[]|e|sg|] st1]; reflexivity.
Qed.

(** X12 -- a pin write that fails.  When the ticks of [pre] have completed
    and the next sample asks for a change of the fan but [GPIO.output]
    raises, the line announcing the change has been logged already, the fan
    record keeps its old value, no later tick is run, and the process ends
    through the catch-all handler with status 0. *)
Theorem X12_failed_pin_write
    (b : Boot) (pre post : list Tick) (t : Tick) (st : State)
    (temp : float) (level : bool) :
  run_fan b pre = (Running, st) ->
  sample t = Some temp ->
  decision t st = Some level ->
  gpio_output_ok t = false ->
  fst (run_fan b (pre ++ t :: post)) = Exit 0 /\
  trace (snd (run_fan b (pre ++ t :: post))) =
    trace st ++
    [Popen "cat /sys/class/thermal/thermal_zone0/temp";
     LogWrite (logName st)
       [Lit (if level then "Turning fan on " else "Turning fan off "); StrF temp];
     GpioOutput pin level;
     LogWrite (logName st) [Lit "ERROR: an unhandled exception occurred"];
     GpioCleanup;
     FileClose (logName st)] /\
  fanOff (myFan (snd (run_fan b (pre ++ t :: post)))) = fanOff (myFan st).
Proof.
  intros Hpre Hsample Hdec Hgpio.
  destruct (running_prefix b pre t post st Hpre) as [Hr Hloop].
  destruct (iteration_result t st Hr) as [Hout Hev].
  destruct (iteration_files t st Hr) as [Hfile _].
  destruct (iteration_fan t st) as (n & Htr & _ & Hfan).
  assert (Hn : n = tick_events t st).
  { rewrite Hev in Htr. apply app_inv_head in Htr. symmetry. exact Htr. }
  subst n. destruct Hr as [Hopen Hname].
  unfold tick_outcome, tick_events, check_outcome, check_events in *.
  rewrite Hsample, Hdec, Hopen, Hgpio in *. cbn [returns andb app commands] in *.
  rewrite run_fan_end, Hloop.
  destruct (iteration t st) as [o st1]. cbn [fst snd] in *. subst o.
  destruct (handler_result RuntimeError st1) as (Hhev & _ & Hhfan & _).
  rewrite Hfile, Hopen. cbn [fst snd].
  rewrite Hhev, Hhfan, Hev, Hfan. unfold handler_events.
  rewrite Hfile, Hopen, Hname, <- app_assoc. repeat split; reflexivity.
Qed.

Lemma X12_failed_pin_write_witness :
  fst (run_fan boot_ok ([quiet day1 50000] ++
                        mkTick (Some 68000%float) false day1 true None :: [])) = Exit 0.
Proof.
  assert (Hpre : run_fan boot_ok [quiet day1 50000] =
                 (Running, snd (run_fan boot_ok [quiet day1 50000])))
    by (vm_compute; reflexivity).
  assert (Hdec : decision (mkTick (Some 68000%float) false day1 true None)
                   (snd (run_fan boot_ok [quiet day1 50000])) = Some true)
    by (vm_compute; reflexivity).
  exact (proj1 (X12_failed_pin_write boot_ok [quiet day1 50000] []
                  (mkTick (Some 68000%float) false day1 true None) _ 68 true
                  Hpre eq_refl Hdec eq_refl)).
Defined.

(** X13 -- the open log is today's.  After every completed tick the name in
    [logName] is the dated name of the day of that tick, and that file is
    the open log, whatever the days of the ticks before were. *)
Theorem X13_open_log_is_todays
    (b : Boot) (pre : list Tick) (t : Tick) (st : State) :
  run_fan b (pre ++ [t]) = (Running, st) ->
  logName st = dated_logName (today t) /\
  fileLog st = mkFile (dated_logName (today t)) false.
Proof.
  intros Hrun. apply run_fan_running in Hrun.
  destruct (loop_spec pre (booted b)) as (n & _ & _ & Hkeep).
  rewrite loop_app in Hrun.
  destruct (loop pre (booted b)) as [[[]|e|sg|] st1] eqn:Hpre; try discriminate.
  cbn [fst snd] in Hkeep. destruct (Hkeep eq_refl) as (_ & _ & Hready & _).
  specialize (Hready (booted_ready b)).
  cbn [loop] in Hrun. unfold bind in Hrun.
  destruct (iteration_result t st1 Hready) as [Hout _].
  destruct (iteration_files t st1 Hready) as [Hfile Hlog].
  destruct (iteration t st1) as [[[]|e|sg|] st2] eqn:Hit; try discriminate;
    [|exfalso; eapply iteration_finishes; exact Hit].
  inversion Hrun; subst st2. cbn [fst snd] in *.
  unfold tick_outcome in Hout.
  destruct (check_outcome t st1) as [[]| | |]; try discriminate.
  cbn [returns andb] in *.
  destruct (rotates t st1) eqn:Hrot.
  - destruct (open_ok t); [|discriminate]. split; assumption.
  - unfold rotates in Hrot. apply negb_false_iff, String.eqb_eq in Hrot.
    destruct Hready as [Hopen Hname].
    rewrite Hlog, Hfile, Hrot. split; [reflexivity|].
    destruct (fileLog st1) as [nm cl]. cbn [name closed] in *. congruence.
Qed.

Lemma X13_open_log_is_todays_witness :
  logName (snd (run_fan boot_ok ([quiet day1 50000] ++ [quiet (mkDate 2024 3 10) 50000]))) =
  dated_logName (mkDate 2024 3 10).
Proof.
  assert (H : run_fan boot_ok ([quiet day1 50000] ++ [quiet (mkDate 2024 3 10) 50000]) =
              (Running,
               snd (run_fan boot_ok
                      ([quiet day1 50000] ++ [quiet (mkDate 2024 3 10) 50000]))))
    by (vm_compute; reflexivity).
  exact (proj1 (X13_open_log_is_todays boot_ok [quiet day1 50000]
                  (quiet (mkDate 2024 3 10) 50000) _ H)).
Defined.

Lemma same_day_iff (p d : Date) :
  ((year p =? year d)%Z && (month p =? month d)%Z && (day p =? day d)%Z = true) <->
  p = d.
Proof.
  rewrite !andb_true_iff, !Z.eqb_eq.
  destruct p as [y0 m0 a0], d as [y1 m1 a1]; cbn [year month day].
  split; [intros [[-> ->] ->]; reflexivity | intros H; inversion H; auto].
Qed.

Lemma loop_days (ticks : list Tick) (st st' : State) (prev : option Date) :
  loop ticks st = (Pending, st') ->
  ready st ->
  match prev with
  | Some p => valid_date p = true /\ logName st = dated_logName p
  | None => logName st = default_logName
  end ->
  forallb (fun t => valid_date (today t)) ticks = true ->
  count is_sweep (trace st') =
    count is_sweep (trace st) + day_changes prev (map today ticks) /\
  count is_popen (trace st') = count is_popen (trace st) + length ticks /\
  count is_sleep (trace st') = count is_sleep (trace st) + length ticks.
Proof.
  revert st prev. induction ticks as [|t rest IH]; intros st prev Hloop Hr Hprev Hvalid.
  - cbn in Hloop. inversion Hloop; subst. cbn. rewrite !Nat.add_0_r. auto.
  - cbn [forallb] in Hvalid. apply andb_true_iff in Hvalid. destruct Hvalid as [Vt Vrest].
    cbn [loop] in Hloop. unfold bind in Hloop.
    destruct (iteration_result t st Hr) as [Hout Hev].
    destruct (iteration_files t st Hr) as [_ Hlog].
    destruct (iteration_spec t st) as (n & _ & _ & _ & _ & _ & _ & _ & Hready).
    destruct (iteration t st) as [[[]|e|sg|] st1] eqn:E; try discriminate;
      [|exfalso; eapply iteration_finishes; exact E].
    cbn [fst snd] in *.
    assert (Hrot : rotates t st =
                   match prev with
                   | Some p => negb ((year p =? year (today t))%Z &&
                                     (month p =? month (today t))%Z &&
                                     (day p =? day (today t))%Z)
                   | None => true
                   end).
    { unfold rotates. destruct prev as [p|].
      - destruct Hprev as [Vp Hname]. rewrite Hname. f_equal.
        destruct (String.eqb_spec (dated_logName (today t)) (dated_logName p)) as [Heq|Hne].
        + apply DateFacts.dated_logName_inj in Heq; auto.
          symmetry. apply same_day_iff. congruence.
        + destruct ((year p =? year (today t))%Z && (month p =? month (today t))%Z &&
                    (day p =? day (today t))%Z) eqn:Hsame; [|reflexivity].
          apply same_day_iff in Hsame. subst p. contradiction Hne. reflexivity.
      - rewrite Hprev. apply negb_true_iff, String.eqb_neq.
        apply DateFacts.dated_logName_not_default. }
    assert (Hnew : match Some (today t) with
                   | Some p => valid_date p = true /\ logName st1 = dated_logName p
                   | None => logName st1 = default_logName
                   end).
    { split; [exact Vt|]. rewrite Hlog.
      unfold tick_outcome in Hout.
      destruct (check_outcome t st) as [[]| | |]; try discriminate. cbn [returns andb].
      destruct (rotates t st) eqn:Hr'; [reflexivity|].
      unfold rotates in Hr'. apply negb_false_iff, String.eqb_eq in Hr'. congruence. }
    destruct (IH st1 (Some (today t)) Hloop (Hready Hr eq_refl) Hnew Vrest)
      as (Hsweep & Hpopen & Hsleep).
    rewrite Hsweep, Hpopen, Hsleep, Hev, !count_app.
    cbn [map day_changes length].
    assert (Hday : match prev with
                   | Some p =>
                       if (year p =? year (today t))%Z && (month p =? month (today t))%Z &&
                          (day p =? day (today t))%Z
                       then 0 else 1
                   | None => 1
                   end = if rotates t st then 1 else 0).
    { rewrite Hrot. destruct prev as [p|]; [|reflexivity].
      destruct ((year p =? year (today t))%Z && (month p =? month (today t))%Z &&
                (day p =? day (today t))%Z); reflexivity. }
    rewrite Hday. clear Hday Hrot.
    revert Hout. destruct Hr as [Hopen _].
    tick_cases t st; try discriminate; intros _; cbn; lia.
Qed.

(** X14 -- one rotation per day begun, one read and one sleep per tick.
    After any number of completed ticks on dates the clock can report, the
    retention sweep has run once for the first tick and once more for every
    tick whose date differs from that of the tick before it, and never
    otherwise; the sensor was read once and the loop slept once per tick. *)
Theorem X14_rotations_reads_and_sleeps (b : Boot) (ticks : list Tick) (st : State) :
  run_fan b ticks = (Running, st) ->
  forallb (fun t => valid_date (today t)) ticks = true ->
  count is_sweep (trace st) = day_changes None (map today ticks) /\
  count is_popen (trace st) = length ticks /\
  count is_sleep (trace st) = length ticks.
Proof.
  intros Hrun Hvalid. apply run_fan_running in Hrun.
  destruct (booted_state b) as (_ & _ & _ & Hname & _).
  destruct (loop_days ticks (booted b) st None Hrun (booted_ready b) Hname Hvalid)
    as (Hsweep & Hpopen & Hsleep).
  assert (Hzero : count is_sweep (trace (booted b)) = 0 /\
                  count is_popen (trace (booted b)) = 0 /\
                  count is_sleep (trace (booted b)) = 0)
    by (destruct b as [[] f]; repeat split; reflexivity).
  destruct Hzero as (Hz1 & Hz2 & Hz3).
  rewrite Hz1 in Hsweep. rewrite Hz2 in Hpopen. rewrite Hz3 in Hsleep.
  repeat split; assumption.
Qed.

Lemma X14_rotations_reads_and_sleeps_witness :
  count is_sweep
    (trace (snd (run_fan boot_ok
                   [quiet day1 50000; quiet day1 50000; quiet (mkDate 2024 3 10) 50000]))) = 2.
Proof.
  assert (H : run_fan boot_ok
                [quiet day1 50000; quiet day1 50000; quiet (mkDate 2024 3 10) 50000] =
              (Running,
               snd (run_fan boot_ok
                      [quiet day1 50000; quiet day1 50000; quiet (mkDate 2024 3 10) 50000])))
    by (vm_compute; reflexivity).
  exact (proj1 (X14_rotations_reads_and_sleeps boot_ok _ _ H eq_refl)).
Defined.

(** X15 -- a log that cannot be reopened.  When the ticks of [pre] have
    completed, the temperature check of the next tick returns, its dated log
    name differs from the open one and [open] raises: the old log has been
    closed already, so the handler's own log line raises in turn; nothing is
    logged, [GPIO.cleanup] is not called in the whole run, the fan record is
    the one the check left, and the process ends with status 1. *)
Theorem X15_failed_log_open
    (b : Boot) (pre post : list Tick) (t : Tick) (st : State) :
  run_fan b pre = (Running, st) ->
  check_outcome t st = Return tt ->
  dated_logName (today t) <> logName st ->
  open_ok t = false ->
  fst (run_fan b (pre ++ t :: post)) = Exit 1 /\
  trace (snd (run_fan b (pre ++ t :: post))) =
    trace st ++ check_events t st ++
    [FileClose (logName st); FileOpen (dated_logName (today t))] /\
  count is_cleanup (trace (snd (run_fan b (pre ++ t :: post)))) = 0 /\
  myFan (snd (run_fan b (pre ++ t :: post))) = myFan (snd (checkTemperature t st)).
Proof.
  intros Hpre Hcheck Hname Hopen_ok.
  destruct (running_prefix b pre t post st Hpre) as [Hr Hloop].
  assert (Hrot : rotates t st = true).
  { unfold rotates. apply negb_true_iff, String.eqb_neq. exact Hname. }
  destruct (iteration_result t st Hr) as [Hout Hev].
  destruct (iteration_files t st Hr) as [Hfile _].
  unfold tick_outcome, tick_events in *.
  rewrite Hcheck, Hrot, Hopen_ok in *. cbn [returns andb negb] in *.
  assert (Hfan : myFan (snd (iteration t st)) = myFan (snd (checkTemperature t st))).
  { destruct (checkTemperature_result t st) as [Hc _]. rewrite Hcheck in Hc.
    unfold iteration, bind.
    destruct (checkTemperature t st) as [o st1]. cbn [fst snd] in *. subst o.
    destruct (rotate_log_spec t st1) as (n & _ & _ & HF & _).
    destruct (rotate_log t st1) as [[[]|e|sg|] st2]; cbn [fst snd] in *;
      try exact HF.
    destruct (sleep_spec t st2) as (_ & _ & HF3 & _). congruence. }
  assert (Hcount : count is_cleanup (trace (snd (run_fan b (pre ++ t :: post)))) =
                   if exited_cleanly (fst (run_fan b (pre ++ t :: post))) then 1 else 0).
  { destruct (loop_spec (pre ++ t :: post) (booted b)) as (n & Htr & Hk & _).
    destruct (booted_state b) as (_ & _ & _ & _ & _ & _ & Hk0).
    rewrite run_fan_end.
    destruct (loop (pre ++ t :: post) (booted b)) as [[[]|e|sg|] st2];
      cbn [fst snd] in *; try (rewrite Htr, count_app, Hk, Hk0; reflexivity).
    destruct (handler_result e st2) as (Hhev & _).
    rewrite Hhev, Htr, !count_app, Hk, Hk0. unfold handler_events.
    destruct (closed (fileLog st2)); reflexivity. }
  rewrite run_fan_end in *. rewrite Hloop in *.
  destruct (iteration t st) as [o st1]. cbn [fst snd] in *. subst o.
  destruct (handler_result IOError st1) as (Hhev & _ & Hhfan & _).
  rewrite Hfile in *. cbn [closed fst snd] in *.
  destruct Hr as [_ Hnm]. split; [reflexivity|]. split; [|split].
  - rewrite Hhev, Hev. unfold handler_events. rewrite Hfile. cbn [closed].
    rewrite Hnm, app_nil_r. reflexivity.
  - exact Hcount.
  - rewrite Hhfan. exact Hfan.
Qed.

Lemma X15_failed_log_open_witness :
  fst (run_fan boot_ok ([quiet day1 68000] ++
                        unopenable (mkDate 2024 3 10) 50000 :: [])) = Exit 1.
Proof.
  assert (Hpre : run_fan boot_ok [quiet day1 68000] =
                 (Running, snd (run_fan boot_ok [quiet day1 68000])))
    by (vm_compute; reflexivity).
  assert (Hcheck : check_outcome (unopenable (mkDate 2024 3 10) 50000)
                     (snd (run_fan boot_ok [quiet day1 68000])) = Return tt)
    by (vm_compute; reflexivity).
  assert (Hname : dated_logName (today (unopenable (mkDate 2024 3 10) 50000)) <>
                  logName (snd (run_fan boot_ok [quiet day1 68000])))
    by (vm_compute; discriminate).
  exact (proj1 (X15_failed_log_open boot_ok [quiet day1 68000] []
                  (unopenable (mkDate 2024 3 10) 50000) _ Hpre Hcheck Hname eq_refl)).
Defined.
